(** * The RNN sequence-generator notebook, embedded in Rocq

    A shallow embedding of [01_RNN_generator_solution.ipynb]: the synthetic
    data generator [create_time_series], the graph built by [model_rnn_fn],
    the autoregressive loop [prediction_run], the training loop and the
    RMSE cell.

    Conventions.
    - Python integers are [Z]; [range], indexing and slicing follow Python
      (negative indices count from the end, slices clamp, indexing raises).
    - NumPy/TensorFlow floating-point numbers are idealised as real numbers:
      arithmetic is exact and a [dtype] is a tag that does not round.
    - Exceptions are values of [exn]; code that draws random numbers or
      talks to the TensorFlow session threads that state explicitly. *)

From Stdlib Require Import ZArith List Reals Lra Lia Bool FinFun.
Import ListNotations.

(** ** Exceptions and the state-and-exception monad *)

Inductive exn : Set :=
| IndexError
| ValueError.

Inductive result (A : Type) : Type :=
| Ok (a : A)
| Raise (e : exn).

Arguments Ok {A} a.
Arguments Raise {A} e.

Definition is_ok {A} (r : result A) : bool :=
  match r with Ok _ => true | Raise _ => false end.

(** A computation over a store [S]: it returns a value or raises, and the
    store it leaves behind is kept either way, as in Python. *)
Definition M (S A : Type) : Type := S -> result A * S.

Definition ret {S A} (a : A) : M S A := fun s => (Ok a, s).

Definition bind {S A B} (c : M S A) (k : A -> M S B) : M S B :=
  fun s =>
    match c s with
    | (Ok a, s') => k a s'
    | (Raise e, s') => (Raise e, s')
    end.

Definition lift {S A} (r : result A) : M S A := fun s => (r, s).

Declare Scope py_scope.
Delimit Scope py_scope with py.
Notation "x <- c ;; k" := (bind c (fun x => k))
  (at level 61, c at next level, right associativity) : py_scope.
Notation "' pat <- c ;; k" := (bind c (fun x => match x with pat => k end))
  (at level 61, pat pattern, c at next level, right associativity) : py_scope.

(** ** Python lists *)

Module Py.

Definition len {A} (l : list A) : Z := Z.of_nat (length l).

(** [range(n)]: [0, 1, ..., n-1], empty when [n <= 0]. *)
Definition range (n : Z) : list Z := map Z.of_nat (seq 0 (Z.to_nat n)).

(** [l[i]]: a negative [i] counts from the end; out of range raises. *)
Definition getitem {A} (l : list A) (i : Z) : result A :=
  let j := if (i <? 0)%Z then (i + len l)%Z else i in
  if ((0 <=? j) && (j <? len l))%Z
  then match nth_error l (Z.to_nat j) with
       | Some a => Ok a
       | None => Raise IndexError
       end
  else Raise IndexError.

(** Bound of a slice: [None] is an omitted bound, a negative bound counts
    from the end, and the result is clamped to [0 .. len]. *)
Definition clamp {A} (l : list A) (dflt : Z) (b : option Z) : Z :=
  match b with
  | None => dflt
  | Some i =>
      let j := if (i <? 0)%Z then (i + len l)%Z else i in
      Z.max 0 (Z.min j (len l))
  end.

(** [l[lo:hi]] *)
Definition slice {A} (l : list A) (lo hi : option Z) : list A :=
  let a := clamp l 0%Z lo in
  let b := clamp l (len l) hi in
  firstn (Z.to_nat (b - a)) (skipn (Z.to_nat a) l).

End Py.

(** ** One-dimensional NumPy arrays *)

Inductive dtype : Set := float32 | float64.

(** A Python float: a number or [nan]. *)
Inductive pyfloat : Type :=
| Num (x : R)
| NaN.

Record ndarray1 : Type := mk_ndarray1 { nd_dtype : dtype; elems : list R }.

Module Np.

Open Scope R_scope.

Fixpoint zip_with {A B C} (f : A -> B -> C) (a : list A) (b : list B) : list C :=
  match a, b with
  | x :: a', y :: b' => f x y :: zip_with f a' b'
  | _, _ => []
  end.

(** Elementwise binary operation on two 1-D operands with NumPy's
    broadcasting: equal lengths pair up, a length-1 operand is stretched,
    anything else is "operands could not be broadcast together". *)
Definition broadcast (f : R -> R -> R) (a b : list R) : result (list R) :=
  if Nat.eqb (length a) (length b) then Ok (zip_with f a b)
  else match a, b with
       | [x], _ => Ok (map (f x) b)
       | _, [y] => Ok (map (fun x => f x y) a)
       | _, _ => Raise ValueError
       end.

Definition add := broadcast Rplus.
Definition sub := broadcast Rminus.

(** [np.arange(0, n)] *)
Definition arange (n : Z) : list Z := Py.range n.

(** [a * c] for an integer array and a float scalar *)
Definition scale (a : list Z) (c : R) : list R := map (fun n => IZR n * c) a.

Definition sin_ (a : list R) : list R := map sin a.

(** [a ** 2] *)
Definition square (a : list R) : list R := map (fun x => x ^ 2) a.

Definition sum (a : list R) : R := fold_right Rplus 0 a.

(** [np.mean(a)]: the mean of an empty array is [nan]. *)
Definition mean (a : list R) : pyfloat :=
  match a with
  | [] => NaN
  | _ => Num (sum a / INR (length a))
  end.

(** [a[lo:hi]] keeps the dtype. *)
Definition getslice (a : ndarray1) (lo hi : option Z) : ndarray1 :=
  mk_ndarray1 (nd_dtype a) (Py.slice (elems a) lo hi).

(** [math.sqrt]: a negative argument is a "math domain error". *)
Definition math_sqrt (x : pyfloat) : result pyfloat :=
  match x with
  | NaN => Ok NaN
  | Num r => if Rlt_dec r 0 then Raise ValueError else Ok (Num (sqrt r))
  end.

End Np.

(** ** Generate fake dataset *)

Set Implicit Arguments.

Section TimeSeries.

Open Scope R_scope.
Open Scope py_scope.

(** The state of NumPy's global generator and [np.random.random()]. *)
Variable rng : Type.
Variable random : rng -> R * rng.

Definition frequencies : list (R * R) := [(0.2, 0.15); (0.35, 0.3); (0.6, 0.55)].

(** [[np.random.random()*0.2 for i in range(datalen)]] *)
Fixpoint noise_list (idx : list Z) (g : rng) : list R * rng :=
  match idx with
  | [] => ([], g)
  | _ :: idx' =>
      let (u, g1) := random g in
      let (ns, g2) := noise_list idx' g1 in
      (u * 0.2 :: ns, g2)
  end.

Definition create_time_series (WAVEFORM_SELECT datalen : Z) : M rng ndarray1 :=
  ' (freq1, freq2) <- lift (Py.getitem frequencies WAVEFORM_SELECT) ;;
  noise <- (fun g => let (ns, g') := noise_list (Py.range datalen) g in (Ok ns, g')) ;;
  x1 <- lift (Np.add (Np.sin_ (Np.scale (Np.arange datalen) freq1)) noise) ;;
  x2 <- lift (Np.add (Np.sin_ (Np.scale (Np.arange datalen) freq2)) noise) ;;
  x <- lift (Np.add x1 x2) ;;
  ret (mk_ndarray1 float32 x).

(** The generator state after [n] draws, and the [n]-th draw itself. *)
Fixpoint rng_after (n : nat) (g : rng) : rng :=
  match n with
  | O => g
  | S n' => rng_after n' (snd (random g))
  end.

Definition draw (n : nat) (g : rng) : R := fst (random (rng_after n g)).

End TimeSeries.

(** ** Arrays exchanged with the TensorFlow session

    The graph fixes the rank of every tensor it feeds or fetches: states and
    outputs are 2-D ([Hin], [H]: [batch, RNN_CELLSIZE*NLAYERS]; [Yout]:
    [batch, 1]), samples and labels are 3-D ([batch, seqlen, 1]).  The data
    of an array is kept flat in row-major order, as NumPy stores it. *)

Record array2 : Type := mk_array2 { a2_shape : Z * Z; a2_flat : list R }.
Record array3 : Type := mk_array3 { a3_shape : Z * Z * Z; a3_flat : list R }.

Module Nd.

Open Scope Z_scope.

(** [np.zeros([r, c])]: a negative dimension is "negative dimensions are not
    allowed". *)
Definition zeros2 (r c : Z) : result array2 :=
  if (r <? 0) || (c <? 0) then Raise ValueError
  else Ok (mk_array2 (r, c) (repeat 0%R (Z.to_nat (r * c)))).

(** [np.reshape(a, [d0, d1, d2])] on the flat data of [a]: the new shape
    must hold exactly the elements of [a]. *)
Definition reshape3 (flat : list R) (d0 d1 d2 : Z) : result array3 :=
  if (0 <=? d0) && (0 <=? d1) && (0 <=? d2) && (d0 * d1 * d2 =? Py.len flat)
  then Ok (mk_array3 (d0, d1, d2) flat)
  else Raise ValueError.

(** [np.expand_dims(a, axis=2)] *)
Definition expand_dims2 (a : array2) : array3 :=
  let (r, c) := a2_shape a in mk_array3 (r, c, 1) (a2_flat a).

(** One index of [a[i, j]] against the extent [d] of its axis. *)
Definition axis_index (d i : Z) : result Z :=
  let j := if i <? 0 then i + d else i in
  if (0 <=? j) && (j <? d) then Ok j else Raise IndexError.

(** [a[i, j]] *)
Definition item2 (a : array2) (i j : Z) : result R :=
  let (r, c) := a2_shape a in
  match axis_index r i, axis_index c j with
  | Ok i', Ok j' =>
      match nth_error (a2_flat a) (Z.to_nat (i' * c + j')) with
      | Some x => Ok x
      | None => Raise IndexError
      end
  | Raise e, _ => Raise e
  | _, Raise e => Raise e
  end.

(** Row [i] of a 2-D array. *)
Definition row (a : array2) (i : Z) : list R :=
  let (_, c) := a2_shape a in
  firstn (Z.to_nat c) (skipn (Z.to_nat (i * c)) (a2_flat a)).

End Nd.

(** ** The TensorFlow graph, as the terms the notebook builds *)

Inductive placeholder_id : Set := ph_Hin | ph_samples | ph_labels | ph_dropout_pkeep.

#[local] Set Warnings "-register-all".

Inductive node : Type :=
| Placeholder (id : placeholder_id) (dims : option (list (option Z)))
| Const (z : Z)
| ShapeAt (x : node) (axis : Z)
| Mul (a b : node)
| DynamicRnnOutputs (cell : rnn_cell) (inputs initial_state : node)
| DynamicRnnState (cell : rnn_cell) (inputs initial_state : node)
| Reshape (x : node) (dims : list node)
| Dense (x : node) (units : Z)
| LastStep (x : node)
| MeanSquaredError (labels predictions : node)
with rnn_cell : Type :=
| GRUCell (uid : Z) (num_units : Z)
| DropoutWrapper (cell : rnn_cell) (output_keep_prob : node)
| MultiRNNCell (cells : list rnn_cell) (state_is_tuple : bool).

Inductive optimizer : Type :=
| AdamOptimizer (learning_rate : R).

Inductive op : Type :=
| Minimize (o : optimizer) (loss : node).

Inductive fetch : Type :=
| FetchNode (n : node)
| FetchOp (o : op).

Definition is_gru (c : rnn_cell) : bool :=
  match c with GRUCell _ _ => true | _ => false end.

Definition has_dropout (c : rnn_cell) : bool :=
  match c with DropoutWrapper _ _ => true | _ => false end.

(** The cell under a dropout wrapper (a bare cell is its own). *)
Definition unwrap (c : rnn_cell) : rnn_cell :=
  match c with DropoutWrapper c' _ => c' | _ => c end.

(** What a [feed_dict] of the notebook holds, by placeholder; the inference
    runs feed no labels. *)
Record feed : Type := mk_feed {
  feed_Hin : array2;
  feed_samples : array3;
  feed_labels : option array3;
  feed_dropout_pkeep : R
}.

(** The values [sess.run] hands back for the model's tensors. *)
Record fetched : Type := mk_fetched {
  v_Yout : array2;
  v_H : array2;
  v_loss : R
}.

(** One execution of the network, as recorded in the trace. *)
Record run_call : Type := mk_call {
  call_fetches : list fetch;
  call_feed : feed;
  call_out : fetched
}.

(** ** The mini-batch sequencer *)

(** Modelled from the spec: the index arithmetic of
    [utils_batching.rnn_minibatch_sequencer], which is not among the sources
    (see [rnn_minibatch_sequencer] below). *)
Module Sequencer.

Open Scope Z_scope.

(** Number of batches in one pass; one element is kept back for the
    shifted labels. *)
Definition nb_batches (data : list R) (batch_size sequence_size : Z) : Z :=
  (Py.len data - 1) / (batch_size * sequence_size).

(** Where the window of row [r] of batch [b] starts. *)
Definition start (nb sequence_size r b : Z) : Z := (r * nb + b) * sequence_size.

(** The window of row [r] of batch [b], moved [off] elements to the right. *)
Definition window (data : list R) (nb sequence_size off r b : Z) : list R :=
  Py.slice data (Some (start nb sequence_size r b + off))
                (Some (start nb sequence_size r b + off + sequence_size)).

Definition batch (data : list R) (nb batch_size sequence_size off b : Z) : array2 :=
  mk_array2 (batch_size, sequence_size)
            (flat_map (fun r => window data nb sequence_size off r b)
                      (Py.range batch_size)).

End Sequencer.

(** Modelled from the spec: [utils_batching.rnn_minibatch_sequencer] is
    imported by the notebook but is not among the sources.  The spec calls
    it "the mini-batch sequencing function that slices a flat time series
    into overlapping sequence/label windows with epoch tracking", "a handful
    of lines of array indexing" whose only failures are "trivial bounds
    checks".  Accordingly: the series must hold at least one batch plus the
    one extra element the shifted labels need; every row of a batch is a
    window of [sequence_size] consecutive elements, its label row is the same
    window moved one element to the right; the batches of one pass over the
    data are yielded once per epoch together with the number of that epoch.
    The spec does not fix where the window of a given row starts; here row
    [r] of batch [b] starts at [(r * nb_batches + b) * sequence_size], so
    that a row continues in the next batch. *)
Definition rnn_minibatch_sequencer (data : list R) (batch_size sequence_size nb_epochs : Z)
  : result (list (array2 * array2 * Z)) :=
  if ((batch_size <=? 0) || (sequence_size <=? 0)
      || (Py.len data - 1 <? batch_size * sequence_size))%Z
  then Raise IndexError
  else
    let nb := Sequencer.nb_batches data batch_size sequence_size in
    Ok (flat_map
          (fun epoch =>
             map (fun b => (Sequencer.batch data nb batch_size sequence_size 0 b,
                            Sequencer.batch data nb batch_size sequence_size 1 b,
                            epoch))
                 (Py.range nb))
          (Py.range nb_epochs)).

(** ** Preparing the plots of the forecast cell *)

(** A NumPy masked array: the data and, per element, whether it is hidden. *)
Record masked_array : Type := mk_masked { ma_data : ndarray1; ma_mask : list bool }.

Module Ma.

(** The dtype of a concatenation: [float64] as soon as one operand has it. *)
Definition promote (a b : dtype) : dtype :=
  match a, b with
  | float32, float32 => float32
  | _, _ => float64
  end.

(** [np.zeros([n])]: a negative length is "negative dimensions are not
    allowed". *)
Definition zeros1 (n : Z) : result ndarray1 :=
  if (n <? 0)%Z then Raise ValueError
  else Ok (mk_ndarray1 float64 (repeat 0%R (Z.to_nat n))).

(** [np.concatenate((a, b))] *)
Definition concatenate (a b : ndarray1) : ndarray1 :=
  mk_ndarray1 (promote (nd_dtype a) (nd_dtype b)) (elems a ++ elems b).

(** [a == 0], elementwise *)
Definition eq_zero (a : ndarray1) : list bool :=
  map (fun x => if Req_dec_T x 0 then true else false) (elems a).

(** [np.ma.masked_where(condition, a)]: the condition must have the shape
    of [a]. *)
Definition masked_where (condition : list bool) (a : ndarray1) : result masked_array :=
  if Nat.eqb (length condition) (length (elems a))
  then Ok (mk_masked a condition)
  else Raise IndexError.

End Ma.

Section Display.

Variables PRIMELEN RUNLEN OFFSET : Z.

(** The arrays the forecast cell plots: [disp_data], [displayresults] and
    [displaydata]; the [plt] calls themselves are left out. *)
Definition display_arrays (data prime_data results : ndarray1)
  : result (ndarray1 * masked_array * masked_array) :=
  let disp_data := Np.getslice data (Some OFFSET) (Some (OFFSET + PRIMELEN + RUNLEN)%Z) in
  match Ma.zeros1 PRIMELEN with
  | Raise e => Raise e
  | Ok zeros =>
      let displayresults := Ma.concatenate zeros results in
      match Ma.masked_where (Ma.eq_zero displayresults) displayresults with
      | Raise e => Raise e
      | Ok displayresults =>
          match Ma.zeros1 RUNLEN with
          | Raise e => Raise e
          | Ok zeros =>
              let displaydata := Ma.concatenate prime_data zeros in
              match Ma.masked_where (Ma.eq_zero displaydata) displaydata with
              | Raise e => Raise e
              | Ok displaydata => Ok (disp_data, displayresults, displaydata)
              end
          end
      end
  end.

End Display.

(** ** The notebook *)

Section Notebook.

Open Scope py_scope.

(** Hyperparameters *)
Variables RNN_CELLSIZE NLAYERS SEQLEN BATCHSIZE : Z.
Variable DROPOUT_PKEEP : R.

(** *** The model definition *)

Definition model_rnn_fn (features Hin labels dropout_pkeep : node)
  : result (node * node * node * op) :=
  let X := features in
  let batchsize := ShapeAt X 0 in
  let seqlen := ShapeAt X 1 in
  let cells := map (fun i => GRUCell i RNN_CELLSIZE) (Py.range NLAYERS) in
  let dcells := map (fun cell => DropoutWrapper cell dropout_pkeep)
                    (Py.slice cells None (Some (-1)%Z)) in
  match Py.getitem cells (-1) with
  | Raise e => Raise e
  | Ok last_cell =>
      let dcells := dcells ++ [last_cell] in
      let cell := MultiRNNCell dcells false in
      let Yn := DynamicRnnOutputs cell X Hin in
      let H := DynamicRnnState cell X Hin in
      let Yn := Reshape Yn [Mul batchsize seqlen; Const RNN_CELLSIZE] in
      let Yr := Dense Yn 1 in
      let Yr := Reshape Yr [batchsize; seqlen; Const 1] in
      let Yout := LastStep Yr in
      let loss := MeanSquaredError Yr labels in
      let optimizer := AdamOptimizer 0.01 in
      let train_op := Minimize optimizer loss in
      Ok (Yout, H, loss, train_op)
  end.

(** The list [dcells] handed to [MultiRNNCell], read back from the graph. *)
Definition stacked_cells (g : node * node * node * op) : list rnn_cell :=
  match g with
  | (_, DynamicRnnState (MultiRNNCell cs _) _ _, _, _) => cs
  | _ => []
  end.

(** *** Instantiate the model: the placeholders *)

Definition Hin : node := Placeholder ph_Hin (Some [None; Some (RNN_CELLSIZE * NLAYERS)%Z]).
Definition samples : node := Placeholder ph_samples (Some [None; None; Some 1%Z]).
Definition labels : node := Placeholder ph_labels (Some [None; None; Some 1%Z]).
Definition dropout_pkeep : node := Placeholder ph_dropout_pkeep None.

(** The four handles [Yout, H, loss, train_op] bound from [model_rnn_fn]. *)
Variables Yout H loss : node.
Variable train_op : op.

(** *** The session *)

Variable session : Type.
Variable sess_run : session -> list fetch -> feed -> fetched * session.

(** The session together with the trace of its executions, oldest first. *)
Record world : Type := mk_world { sess : session; trace : list run_call }.

(** [sess.run(fetches, feed_dict=feed)] *)
Definition run (fetches : list fetch) (fd : feed) : M world fetched :=
  fun w =>
    let (v, s') := sess_run (sess w) fetches fd in
    (Ok v, mk_world s' (trace w ++ [mk_call fetches fd v])).

(** *** Inference *)

(** [np.array(results)] for a list of [np.float32] scalars: an empty list
    gives NumPy's default [float64]. *)
Definition np_array (results : list R) : ndarray1 :=
  mk_ndarray1 (match results with [] => float64 | _ => float32 end) results.

(** The body of [for i in range(run_length)], over the remaining indices. *)
Fixpoint feedback_loop (idx : list Z) (Yout_ H_ : array2) (results : list R)
  : M world (list R) :=
  match idx with
  | [] => ret results
  | _ :: idx' =>
      Yin <- lift (Nd.reshape3 (a2_flat Yout_) 1 1 1) ;;
      v <- run [FetchNode Yout; FetchNode H] (mk_feed H_ Yin None 1.0) ;;
      y <- lift (Nd.item2 (v_Yout v) 0 0) ;;
      feedback_loop idx' (v_Yout v) (v_H v) (results ++ [y])
  end.

Definition prediction_run (prime_data : ndarray1) (run_length : Z) : M world ndarray1 :=
  H_ <- lift (Nd.zeros2 1 (RNN_CELLSIZE * NLAYERS)) ;;
  Yout_ <- lift (Nd.zeros2 1 1) ;;
  let data_len := Py.len (elems prime_data) in
  ' (Yout_, H_) <-
      (if (0 <? data_len)%Z
       then
         Yin <- lift (Nd.reshape3 (elems prime_data) 1 data_len 1) ;;
         v <- run [FetchNode Yout; FetchNode H] (mk_feed H_ Yin None 1.0) ;;
         ret (v_Yout v, v_H v)
       else ret (Yout_, H_)) ;;
  results <- feedback_loop (Py.range run_length) Yout_ H_ [] ;;
  ret (np_array results).

(** The shape TensorFlow gives [Yout = Yr[:,-1,:]]: for samples of shape
    [b, l, 1] with a non-empty sequence, one value per batch row. *)
Definition well_shaped : Prop :=
  forall s fetches fd b l,
    a3_shape (feed_samples fd) = (b, l, 1%Z) -> (0 <= b)%Z -> (0 < l)%Z ->
    let v := fst (sess_run s fetches fd) in
    a2_shape (v_Yout v) = (b, 1%Z) /\ Py.len (a2_flat (v_Yout v)) = b.

(** [feedback_chain s Y0 H0 calls ys s']: starting from session [s] with
    output [Y0] and state [H0] in hand, [calls] are successive executions
    of the network, each fed the output (as a one-sample sequence) and the
    state of the one before it, with keep probability 1; [ys] are the
    outputs [Yout_[0,0]] they produced, in order, and [s'] is the session
    they leave. *)
Inductive feedback_chain
  : session -> array2 -> array2 -> list run_call -> list R -> session -> Prop :=
| chain_done : forall s Y0 H0, feedback_chain s Y0 H0 [] [] s
| chain_step : forall s Y0 H0 c calls y ys s',
    let fetches := [FetchNode Yout; FetchNode H] in
    let fd := mk_feed H0 (mk_array3 (1, 1, 1)%Z (a2_flat Y0)) None 1.0 in
    c = mk_call fetches fd (fst (sess_run s fetches fd)) ->
    Nd.item2 (v_Yout (call_out c)) 0 0 = Ok y ->
    feedback_chain (snd (sess_run s fetches fd))
                   (v_Yout (call_out c)) (v_H (call_out c)) calls ys s' ->
    feedback_chain s Y0 H0 (c :: calls) (y :: ys) s'.

(** *** The training loop *)

Variable NB_EPOCHS : Z.

Definition Hzero : result array2 := Nd.zeros2 BATCHSIZE (RNN_CELLSIZE * NLAYERS).

(** The body of the [for i, (next_samples, next_labels, epoch) in
    enumerate(...)] loop; printing is left out, and [np.mean(loss_)] of the
    scalar loss is the loss itself. *)
Fixpoint training_steps (batches : list (array2 * array2 * Z)) (i : Z)
         (H_ : array2) (losses : list R) (indices : list Z)
  : M world (array2 * list R * list Z) :=
  match batches with
  | [] => ret (H_, losses, indices)
  | (next_samples, next_labels, epoch) :: rest =>
      let next_samples := Nd.expand_dims2 next_samples in
      let next_labels := Nd.expand_dims2 next_labels in
      v <- run [FetchNode Yout; FetchNode H; FetchNode loss; FetchOp train_op]
               (mk_feed H_ next_samples (Some next_labels) DROPOUT_PKEEP) ;;
      let H_ := v_H v in
      let loss_ := v_loss v in
      let '(losses, indices) :=
        if (i mod 10 =? 0)%Z then (losses ++ [loss_], indices ++ [i])
        else (losses, indices) in
      training_steps rest (i + 1)%Z H_ losses indices
  end.

(** One step of the loop as seen in the trace: what it fetches and feeds
    for batch [b]. *)
Definition training_call (c : run_call) (b : array2 * array2 * Z) : Prop :=
  call_fetches c = [FetchNode Yout; FetchNode H; FetchNode loss; FetchOp train_op]
  /\ feed_samples (call_feed c) = Nd.expand_dims2 (fst (fst b))
  /\ feed_labels (call_feed c) = Some (Nd.expand_dims2 (snd (fst b)))
  /\ feed_dropout_pkeep (call_feed c) = DROPOUT_PKEEP.

(** [training_chain s H0 batches calls s' Hf]: starting in session [s] with
    state [H0], [calls] are the executions of the training steps on [batches],
    one per batch: each runs in the session left by the one before it, fetches
    [Yout], [H], [loss] and [train_op], and is fed the batch, the keep
    probability [DROPOUT_PKEEP] and the state returned by the one before it;
    [s'] and [Hf] are the session and the state after the last step. *)
Inductive training_chain
  : session -> array2 -> list (array2 * array2 * Z) -> list run_call ->
    session -> array2 -> Prop :=
| training_done : forall s H0, training_chain s H0 [] [] s H0
| training_step : forall s H0 b batches c calls s' Hf,
    let fetches := [FetchNode Yout; FetchNode H; FetchNode loss; FetchOp train_op] in
    let fd := mk_feed H0 (Nd.expand_dims2 (fst (fst b)))
                      (Some (Nd.expand_dims2 (snd (fst b)))) DROPOUT_PKEEP in
    c = mk_call fetches fd (fst (sess_run s fetches fd)) ->
    training_chain (snd (sess_run s fetches fd)) (v_H (call_out c)) batches calls s' Hf ->
    training_chain s H0 (b :: batches) (c :: calls) s' Hf.

Definition training_loop (data : ndarray1) : M world (array2 * list R * list Z) :=
  H_ <- lift Hzero ;;
  batches <- lift (rnn_minibatch_sequencer (elems data) BATCHSIZE SEQLEN NB_EPOCHS) ;;
  training_steps batches 0%Z H_ [] [].

(** *** Forecast and error metric *)

Variables PRIMELEN RUNLEN OFFSET RMSELEN : Z.

(** [math.sqrt(np.mean((data[OFFSET+PRIMELEN:OFFSET+PRIMELEN+RMSELEN]
    - results[:RMSELEN])**2))] *)
Definition rmse (data results : ndarray1) : result pyfloat :=
  let truth := Np.getslice data (Some (OFFSET + PRIMELEN)%Z)
                           (Some (OFFSET + PRIMELEN + RMSELEN)%Z) in
  let predicted := Np.getslice results None (Some RMSELEN) in
  match Np.sub (elems truth) (elems predicted) with
  | Raise e => Raise e
  | Ok diff => Np.math_sqrt (Np.mean (Np.square diff))
  end.

(** The last code cell: the forecast, the arrays of its plots, the metric.
    The [plt] calls are left out. *)
Definition forecast_cell (data : ndarray1)
  : M world (ndarray1 * (ndarray1 * masked_array * masked_array) * pyfloat) :=
  let prime_data := Np.getslice data (Some OFFSET) (Some (OFFSET + PRIMELEN)%Z) in
  results <- prediction_run prime_data RUNLEN ;;
  plots <- lift (display_arrays PRIMELEN RUNLEN OFFSET data prime_data results) ;;
  e <- lift (rmse data results) ;;
  ret (results, plots, e).

End Notebook.

Unset Implicit Arguments.

(** A small concrete setting in which the definitions can be run: a
    generator that always draws one half, and a stand-in network whose output
    for every batch row is the number of executions made so far and whose new
    state is the state it was fed. *)
Module Example.

Definition random (s : nat) : R * nat := (0.5%R, S s).

Definition sess_run (s : nat) (fetches : list fetch) (fd : feed) : fetched * nat :=
  let '(b, _, _) := a3_shape (feed_samples fd) in
  (mk_fetched (mk_array2 (b, 1%Z) (repeat (INR s) (Z.to_nat b))) (feed_Hin fd) 0%R,
   S s).

Definition w0 : world nat := mk_world O [].

Definition prime_data : ndarray1 := mk_ndarray1 float32 [1%R; 2%R].

Definition empty_data : ndarray1 := mk_ndarray1 float32 [].

Definition series : ndarray1 := mk_ndarray1 float32 (repeat 1%R 404).

Definition forecast : ndarray1 := mk_ndarray1 float32 (repeat 0%R 128).

(** Nine samples: two batches of two rows of two samples per epoch. *)
Definition short_series : list R := [0; 1; 2; 3; 4; 5; 6; 7; 8]%R.

End Example.

(** The values the notebook assigns to its globals. *)
Module Hyper.
Definition WAVEFORM_SELECT : Z := 0.
Definition DATA_SEQ_LEN : Z := 1024 * 128.
Definition RNN_CELLSIZE : Z := 64.
Definition NLAYERS : Z := 2.
Definition SEQLEN : Z := 16.
Definition BATCHSIZE : Z := 32.
Definition DROPOUT_PKEEP : R := 0.7.
Definition NB_EPOCHS : Z := 10.
Definition PRIMELEN : Z := 256.
Definition RUNLEN : Z := 512.
Definition OFFSET : Z := 20.
Definition RMSELEN : Z := 128.

(** The cell "Instantiate the model".  [model_rnn_fn] returns normally for
    these hyperparameters, so the fallback of the four handles is never
    taken. *)
Definition model : result (node * node * node * op) :=
  model_rnn_fn RNN_CELLSIZE NLAYERS samples (Hin RNN_CELLSIZE NLAYERS) labels dropout_pkeep.

Definition Yout : node :=
  Eval lazy -[Q2R] in
  match model with Ok (Yout, _, _, _) => Yout | Raise _ => Const 0 end.

Definition H : node :=
  Eval lazy -[Q2R] in
  match model with Ok (_, H, _, _) => H | Raise _ => Const 0 end.

Definition loss : node :=
  Eval lazy -[Q2R] in
  match model with Ok (_, _, loss, _) => loss | Raise _ => Const 0 end.

Definition train_op : op :=
  Eval lazy -[Q2R] in
  match model with
  | Ok (_, _, _, train_op) => train_op
  | Raise _ => Minimize (AdamOptimizer 0) (Const 0)
  end.
End Hyper.

(** * Properties *)

(** ** The definitions at work *)

Example range_three : Py.range 3 = [0; 1; 2]%Z.
Proof. reflexivity. Qed.

Example range_negative : Py.range (-2) = [].
Proof. reflexivity. Qed.

Example getitem_from_end : Py.getitem [10; 20; 30]%Z (-1) = Ok 30%Z.
Proof. reflexivity. Qed.

Example getitem_past_end :
  Py.getitem [10; 20; 30]%Z 3 = Raise IndexError
  /\ Py.getitem [10; 20; 30]%Z (-4) = Raise IndexError.
Proof. split; reflexivity. Qed.

Example slice_without_last : Py.slice [10; 20; 30]%Z None (Some (-1)%Z) = [10; 20]%Z.
Proof. reflexivity. Qed.

Example slice_clamped : Py.slice [10; 20; 30]%Z (Some 1%Z) (Some 99%Z) = [20; 30]%Z.
Proof. reflexivity. Qed.

Example broadcast_mismatch : Np.sub [1; 2; 3]%R [1; 2]%R = Raise ValueError.
Proof. reflexivity. Qed.

Example broadcast_stretch : Np.sub [1; 2; 3]%R [1]%R = Ok [1 - 1; 2 - 1; 3 - 1]%R.
Proof. reflexivity. Qed.

(** A negative selector still picks a waveform; only 3 and beyond, or -4 and
    below, raise. *)
Example select_from_end : Py.getitem frequencies (-1) = Ok (0.6, 0.55)%R.
Proof. reflexivity. Qed.

Example select_out_of_range :
  create_time_series Example.random 3 5 O = (Raise IndexError, O).
Proof. reflexivity. Qed.

Example no_layer_no_model :
  model_rnn_fn 64 0 samples (Hin 64 0) labels dropout_pkeep = Raise IndexError.
Proof. reflexivity. Qed.

Example sequencer_short :
  rnn_minibatch_sequencer Example.short_series 2 2 1
  = Ok [(mk_array2 (2, 2)%Z [0; 1; 4; 5]%R, mk_array2 (2, 2)%Z [1; 2; 5; 6]%R, 0%Z);
        (mk_array2 (2, 2)%Z [2; 3; 6; 7]%R, mk_array2 (2, 2)%Z [3; 4; 7; 8]%R, 0%Z)].
Proof. reflexivity. Qed.

Example sequencer_too_short :
  rnn_minibatch_sequencer [1; 2; 3; 4]%R 2 2 1 = Raise IndexError.
Proof. reflexivity. Qed.

(** Two predictions after priming: the stand-in network answers with its
    execution count, so the priming execution is number 0 and the results are
    the outputs of executions 1 and 2. *)
Example prediction_run_two :
  fst (prediction_run Hyper.RNN_CELLSIZE Hyper.NLAYERS Hyper.Yout Hyper.H
                      Example.sess_run Example.prime_data 2 Example.w0)
  = Ok (mk_ndarray1 float32 [INR 1; INR 2]).
Proof. reflexivity. Qed.

Example prediction_run_none :
  fst (prediction_run Hyper.RNN_CELLSIZE Hyper.NLAYERS Hyper.Yout Hyper.H
                      Example.sess_run Example.prime_data 0 Example.w0)
  = Ok (mk_ndarray1 float64 []).
Proof. reflexivity. Qed.

(** ** Python lists and NumPy helpers *)

Lemma range_length (n : Z) : length (Py.range n) = Z.to_nat n.
Proof. unfold Py.range. now rewrite length_map, length_seq. Qed.

Lemma range_nth (n : Z) (i : nat) :
  (i < Z.to_nat n)%nat -> nth_error (Py.range n) i = Some (Z.of_nat i).
Proof.
  intros Hi. unfold Py.range.
  rewrite nth_error_map, nth_error_seq.
  destruct (Nat.ltb_spec i (Z.to_nat n)); [reflexivity | lia].
Qed.

Lemma zip_with_length {A B C} (f : A -> B -> C) (a : list A) (b : list B) :
  length a = length b -> length (Np.zip_with f a b) = length a.
Proof.
  revert b. induction a as [|x a IH]; intros [|y b] Hl; simpl in *; try congruence.
  f_equal. apply IH. congruence.
Qed.

Lemma zip_with_nth {A B C} (f : A -> B -> C) (a : list A) (b : list B) i x y :
  nth_error a i = Some x -> nth_error b i = Some y ->
  nth_error (Np.zip_with f a b) i = Some (f x y).
Proof.
  revert b i. induction a as [|x' a IH]; intros [|y' b] [|i] Ha Hb; simpl in *;
    try discriminate.
  - congruence.
  - now apply IH.
Qed.

Lemma broadcast_same_length (f : R -> R -> R) (a b : list R) :
  length a = length b -> Np.broadcast f a b = Ok (Np.zip_with f a b).
Proof. intros Hl. unfold Np.broadcast. now rewrite Hl, Nat.eqb_refl. Qed.

Lemma getitem_in_range {A} (l : list A) (i : Z) (d : A) :
  (0 <= i < Py.len l)%Z -> Py.getitem l i = Ok (nth (Z.to_nat i) l d).
Proof.
  intros Hi. unfold Py.getitem.
  destruct (Z.ltb_spec i 0); [lia|].
  destruct (Z.leb_spec 0 i); [|lia].
  destruct (Z.ltb_spec i (Py.len l)); [|lia]. simpl.
  unfold Py.len in Hi.
  rewrite (nth_error_nth' l d) by lia. reflexivity.
Qed.

Lemma getitem_raises {A} (l : list A) (i : Z) (e : exn) :
  Py.getitem l i = Raise e ->
  e = IndexError /\ ((i < - Py.len l)%Z \/ (Py.len l <= i)%Z).
Proof.
  unfold Py.getitem, Py.len.
  destruct (Z.ltb_spec i 0);
    (match goal with |- context [(?a <=? ?b)%Z] => destruct (Z.leb_spec a b) end);
    (match goal with |- context [(?a <? ?b)%Z] => destruct (Z.ltb_spec a b) end);
    simpl; intros Hr;
    try (inversion Hr; split; [reflexivity | lia]).
  - destruct (nth_error l (Z.to_nat (i + Z.of_nat (length l)))) eqn:E; [discriminate|].
    apply nth_error_None in E. lia.
  - destruct (nth_error l (Z.to_nat i)) eqn:E; [discriminate|].
    apply nth_error_None in E. lia.
Qed.

(** ** [create_time_series] *)

Section TimeSeriesFacts.

Open Scope R_scope.

Variable rng : Type.
Variable random : rng -> R * rng.

Lemma noise_list_length idx g : length (fst (noise_list random idx g)) = length idx.
Proof.
  revert g. induction idx as [|i idx IH]; intros g; simpl; [reflexivity|].
  destruct (random g) as [u g1]. specialize (IH g1).
  destruct (noise_list random idx g1) as [ns g2]. simpl in *. now rewrite IH.
Qed.

Lemma noise_list_nth idx g n :
  (n < length idx)%nat ->
  nth_error (fst (noise_list random idx g)) n = Some (draw random n g * 0.2).
Proof.
  revert g n. induction idx as [|i idx IH]; intros g n Hn; simpl in *; [lia|].
  unfold draw. destruct n as [|n]; simpl.
  - destruct (random g) as [u g1].
    destruct (noise_list random idx g1) as [ns g2]. reflexivity.
  - specialize (IH (snd (random g)) n ltac:(lia)).
    destruct (random g) as [u g1]. simpl in *.
    destruct (noise_list random idx g1) as [ns g2]. simpl in *. exact IH.
Qed.

(** The sinusoid [np.sin(np.arange(0,datalen) * freq)]. *)
Lemma sinusoid_length datalen freq :
  length (Np.sin_ (Np.scale (Np.arange datalen) freq)) = Z.to_nat datalen.
Proof. unfold Np.sin_, Np.scale, Np.arange. now rewrite !length_map, range_length. Qed.

Lemma sinusoid_nth datalen freq n :
  (n < Z.to_nat datalen)%nat ->
  nth_error (Np.sin_ (Np.scale (Np.arange datalen) freq)) n
  = Some (sin (IZR (Z.of_nat n) * freq)).
Proof.
  intros Hn. unfold Np.sin_, Np.scale, Np.arange.
  rewrite !nth_error_map, (range_nth _ _ Hn). reflexivity.
Qed.

(** What the body computes once the frequency pair has been selected. *)
Lemma create_time_series_unfold ws datalen g freq1 freq2 :
  Py.getitem frequencies ws = Ok (freq1, freq2) ->
  let noise := fst (noise_list random (Py.range datalen) g) in
  create_time_series random ws datalen g
  = (Ok (mk_ndarray1 float32
           (Np.zip_with Rplus
              (Np.zip_with Rplus (Np.sin_ (Np.scale (Np.arange datalen) freq1)) noise)
              (Np.zip_with Rplus (Np.sin_ (Np.scale (Np.arange datalen) freq2)) noise))),
     snd (noise_list random (Py.range datalen) g)).
Proof.
  intros Hf noise. unfold create_time_series, bind, lift, ret. rewrite Hf.
  pose proof (noise_list_length (Py.range datalen) g) as Hn.
  rewrite range_length in Hn. subst noise.
  destruct (noise_list random (Py.range datalen) g) as [ns g']. simpl in *.
  assert (Hs : forall f, length (Np.sin_ (Np.scale (Np.arange datalen) f)) = length ns)
    by (intros f; now rewrite sinusoid_length).
  unfold Np.add.
  rewrite (broadcast_same_length _ _ _ (Hs freq1)), (broadcast_same_length _ _ _ (Hs freq2)).
  rewrite broadcast_same_length by (rewrite !zip_with_length; auto; congruence).
  reflexivity.
Qed.

Lemma waveform_length datalen g freq1 freq2 :
  let noise := fst (noise_list random (Py.range datalen) g) in
  length (Np.zip_with Rplus
            (Np.zip_with Rplus (Np.sin_ (Np.scale (Np.arange datalen) freq1)) noise)
            (Np.zip_with Rplus (Np.sin_ (Np.scale (Np.arange datalen) freq2)) noise))
  = Z.to_nat datalen.
Proof.
  intros noise.
  assert (Hn : length noise = Z.to_nat datalen)
    by (unfold noise; now rewrite noise_list_length, range_length).
  assert (Hs : forall f, length (Np.zip_with Rplus
                                   (Np.sin_ (Np.scale (Np.arange datalen) f)) noise)
                         = Z.to_nat datalen).
  { intros f. rewrite zip_with_length; rewrite sinusoid_length; congruence. }
  rewrite zip_with_length by (rewrite !Hs; reflexivity).
  apply Hs.
Qed.

Lemma create_time_series_length ws datalen g x g' :
  create_time_series random ws datalen g = (Ok x, g') ->
  (0 <= datalen)%Z -> Py.len (elems x) = datalen.
Proof.
  intros Hrun Hlen.
  destruct (Py.getitem frequencies ws) as [[freq1 freq2]|e0] eqn:Hget.
  - rewrite (create_time_series_unfold ws datalen g _ _ Hget) in Hrun.
    inversion Hrun; subst. cbn [elems]. unfold Py.len.
    rewrite waveform_length. lia.
  - unfold create_time_series, bind, lift in Hrun. rewrite Hget in Hrun. discriminate.
Qed.

Lemma frequencies_selected ws :
  In ws [0; 1; 2]%Z ->
  exists f, Py.getitem frequencies ws = Ok f
            /\ nth_error frequencies (Z.to_nat ws) = Some f.
Proof.
  intros [<-|[<-|[<-|[]]]]; eexists; split; reflexivity.
Qed.

(** C2. For a valid [WAVEFORM_SELECT] (0, 1 or 2) and every [datalen >= 0],
    [create_time_series(datalen)] returns a [float32] array of length
    [datalen]; with [(freq1, freq2)] the entry at index [WAVEFORM_SELECT] of
    the fixed list [[(0.2,0.15), (0.35,0.3), (0.6,0.55)]], its [n]-th element
    is [sin(n*freq1) + sin(n*freq2)] plus a noise term, namely twice the
    [n]-th random draw scaled by [0.2]. *)
Theorem create_time_series_waveform ws datalen g :
  In ws [0; 1; 2]%Z -> (0 <= datalen)%Z ->
  exists freq1 freq2 x g',
    nth_error [(0.2, 0.15); (0.35, 0.3); (0.6, 0.55)] (Z.to_nat ws) = Some (freq1, freq2)
    /\ create_time_series random ws datalen g = (Ok x, g')
    /\ nd_dtype x = float32
    /\ Py.len (elems x) = datalen
    /\ forall n, (0 <= n < datalen)%Z ->
         nth_error (elems x) (Z.to_nat n)
         = Some (sin (IZR n * freq1) + sin (IZR n * freq2)
                 + 2 * (draw random (Z.to_nat n) g * 0.2)).
Proof.
  intros Hws Hlen.
  destruct (frequencies_selected ws Hws) as [[freq1 freq2] [Hget Hnth]].
  pose proof (create_time_series_unfold ws datalen g _ _ Hget) as Hrun. cbv zeta in Hrun.
  pose proof (noise_list_length (Py.range datalen) g) as Hnl.
  rewrite range_length in Hnl.
  eexists freq1, freq2, _, _. split; [exact Hnth|]. split; [exact Hrun|].
  split; [reflexivity|]. simpl elems. split.
  - unfold Py.len. rewrite waveform_length. lia.
  - intros n Hn.
    assert (Hn' : (Z.to_nat n < Z.to_nat datalen)%nat) by lia.
    pose proof (sinusoid_nth datalen freq1 _ Hn') as H1.
    pose proof (sinusoid_nth datalen freq2 _ Hn') as H2.
    assert (Hd : nth_error (fst (noise_list random (Py.range datalen) g)) (Z.to_nat n)
                 = Some (draw random (Z.to_nat n) g * 0.2))
      by (apply noise_list_nth; rewrite range_length; exact Hn').
    rewrite Z2Nat.id in H1, H2 by lia.
    rewrite (zip_with_nth Rplus _ _ _ _ _ (zip_with_nth Rplus _ _ _ _ _ H1 Hd)
                                          (zip_with_nth Rplus _ _ _ _ _ H2 Hd)).
    f_equal. lra.
Qed.

(** A valid selector never fails; a failure is the [IndexError] of the
    frequency lookup, raised before anything else happens. *)
Lemma create_time_series_returns ws datalen g :
  In ws [0; 1; 2]%Z ->
  exists f x g',
    Py.getitem frequencies ws = Ok f
    /\ create_time_series random ws datalen g = (Ok x, g').
Proof.
  intros Hws.
  destruct (frequencies_selected ws Hws) as [[freq1 freq2] [Hget _]].
  pose proof (create_time_series_unfold ws datalen g _ _ Hget) as Hrun. cbv zeta in Hrun.
  eauto.
Qed.

Lemma create_time_series_raises ws datalen g e g' :
  create_time_series random ws datalen g = (Raise e, g') ->
  e = IndexError /\ Py.getitem frequencies ws = Raise IndexError
  /\ ~ In ws [0; 1; 2]%Z /\ g' = g.
Proof.
  intros Hrun.
  destruct (Py.getitem frequencies ws) as [[freq1 freq2]|e0] eqn:Hget.
  - rewrite (create_time_series_unfold ws datalen g _ _ Hget) in Hrun. discriminate.
  - unfold create_time_series, bind, lift in Hrun. rewrite Hget in Hrun.
    inversion Hrun; subst.
    destruct (getitem_raises _ _ _ Hget) as [-> Hout].
    repeat split; try reflexivity.
    intros Hin. unfold Py.len in Hout. simpl in Hout, Hin. lia.
Qed.

(** C8. The same noise vector is added to each of the two sinusoids before
    they are summed: every element is
    [(sin(n*freq1) + u) + (sin(n*freq2) + u)] for one scaled draw [u] from
    [0, 0.2), so the noise it carries is [2*u], which lies in [0, 0.4). *)
Theorem create_time_series_noise_twice ws datalen g x g' :
  (forall s, 0 <= fst (random s) < 1) ->
  create_time_series random ws datalen g = (Ok x, g') ->
  forall n, (0 <= n < datalen)%Z ->
  exists freq1 freq2 u,
    Py.getitem frequencies ws = Ok (freq1, freq2)
    /\ u = draw random (Z.to_nat n) g * 0.2
    /\ 0 <= u < 0.2
    /\ nth_error (elems x) (Z.to_nat n)
       = Some ((sin (IZR n * freq1) + u) + (sin (IZR n * freq2) + u))
    /\ (sin (IZR n * freq1) + u) + (sin (IZR n * freq2) + u)
       - (sin (IZR n * freq1) + sin (IZR n * freq2)) = 2 * u
    /\ 0 <= 2 * u < 0.4.
Proof.
  intros Hunit Hrun n Hn.
  destruct (Py.getitem frequencies ws) as [[freq1 freq2]|e0] eqn:Hget.
  2:{ unfold create_time_series, bind, lift in Hrun. rewrite Hget in Hrun. discriminate. }
  rewrite (create_time_series_unfold ws datalen g _ _ Hget) in Hrun.
  inversion Hrun; subst x g'; clear Hrun.
  assert (Hn' : (Z.to_nat n < Z.to_nat datalen)%nat) by lia.
  pose proof (sinusoid_nth datalen freq1 _ Hn') as H1.
  pose proof (sinusoid_nth datalen freq2 _ Hn') as H2.
  assert (Hd : nth_error (fst (noise_list random (Py.range datalen) g)) (Z.to_nat n)
               = Some (draw random (Z.to_nat n) g * 0.2))
    by (apply noise_list_nth; rewrite range_length; exact Hn').
  rewrite Z2Nat.id in H1, H2 by lia.
  pose proof (Hunit (rng_after random (Z.to_nat n) g)) as Hu.
  fold (draw random (Z.to_nat n) g) in Hu.
  exists freq1, freq2, (draw random (Z.to_nat n) g * 0.2).
  split; [reflexivity|]. split; [reflexivity|]. split; [lra|]. split.
  - simpl elems.
    apply zip_with_nth; apply zip_with_nth; assumption.
  - split; lra.
Qed.

End TimeSeriesFacts.

(** Instances: a generator that always returns one half, three samples of
    waveform 0. *)
Lemma create_time_series_waveform_witness :
  exists freq1 freq2 x g',
    nth_error [(0.2, 0.15); (0.35, 0.3); (0.6, 0.55)]%R (Z.to_nat 0) = Some (freq1, freq2)
    /\ create_time_series Example.random 0 3 O = (Ok x, g')
    /\ nd_dtype x = float32
    /\ Py.len (elems x) = 3%Z
    /\ forall n, (0 <= n < 3)%Z ->
         nth_error (elems x) (Z.to_nat n)
         = Some (sin (IZR n * freq1) + sin (IZR n * freq2)
                 + 2 * (draw Example.random (Z.to_nat n) O * 0.2))%R.
Proof.
  apply (@create_time_series_waveform nat Example.random 0%Z 3%Z O).
  - simpl. auto.
  - lia.
Defined.

Lemma create_time_series_noise_twice_witness :
  exists x g',
    create_time_series Example.random 0 3 O = (Ok x, g')
    /\ exists freq1 freq2 u,
         Py.getitem frequencies 0 = Ok (freq1, freq2)
         /\ u = (draw Example.random (Z.to_nat 1) O * 0.2)%R
         /\ (0 <= u < 0.2)%R
         /\ nth_error (elems x) (Z.to_nat 1)
            = Some ((sin (IZR 1 * freq1) + u) + (sin (IZR 1 * freq2) + u))%R
         /\ ((sin (IZR 1 * freq1) + u) + (sin (IZR 1 * freq2) + u)
             - (sin (IZR 1 * freq1) + sin (IZR 1 * freq2)) = 2 * u)%R
         /\ (0 <= 2 * u < 0.4)%R.
Proof.
  pose proof (create_time_series_unfold nat Example.random
                0%Z 3%Z O _ _ eq_refl) as Hrun.
  cbv zeta in Hrun.
  eexists _, _. split; [exact Hrun|].
  refine (create_time_series_noise_twice nat Example.random
            0%Z 3%Z O _ _ _ Hrun 1%Z _).
  - intros s. simpl. lra.
  - lia.
Defined.

(** ** [prediction_run] *)

Section PredictionFacts.

Variables RNN_CELLSIZE NLAYERS : Z.
Variables Yout H : node.
Variable session : Type.
Variable sess_run : session -> list fetch -> feed -> fetched * session.

Let fetches : list fetch := [FetchNode Yout; FetchNode H].

Lemma run_eq fs fd (w : world session) :
  run sess_run fs fd w
  = (Ok (fst (sess_run (sess w) fs fd)),
     mk_world (snd (sess_run (sess w) fs fd))
              (trace w ++ [mk_call fs fd (fst (sess_run (sess w) fs fd))])).
Proof. unfold run. now destruct (sess_run (sess w) fs fd). Qed.

Lemma reshape3_ok flat d :
  Py.len flat = d -> Nd.reshape3 flat 1 d 1 = Ok (mk_array3 (1, d, 1)%Z flat).
Proof.
  intros Hd. unfold Nd.reshape3.
  assert (0 <= d)%Z by (unfold Py.len in Hd; lia).
  replace (1 * d * 1)%Z with d by lia.
  rewrite Hd, Z.eqb_refl.
  destruct (Z.leb_spec 0 d); [reflexivity | lia].
Qed.

Lemma item2_single (a : array2) :
  a2_shape a = (1, 1)%Z -> Py.len (a2_flat a) = 1%Z ->
  exists y, a2_flat a = [y] /\ Nd.item2 a 0 0 = Ok y.
Proof.
  intros Hs Hl. unfold Nd.item2. rewrite Hs. simpl.
  unfold Py.len in Hl.
  destruct (a2_flat a) as [|y [|z l]]; simpl in Hl; try lia.
  exists y. split; reflexivity.
Qed.

(** The loop, on a store whose pending output holds a single value. *)
Lemma feedback_loop_chain (Hshape : well_shaped sess_run) :
  forall idx Y0 H0 results (w : world session),
    Py.len (a2_flat Y0) = 1%Z ->
    exists calls ys s',
      feedback_loop Yout H sess_run idx Y0 H0 results w
      = (Ok (results ++ ys), mk_world s' (trace w ++ calls))
      /\ feedback_chain Yout H sess_run (sess w) Y0 H0 calls ys s'
      /\ length calls = length idx
      /\ length ys = length idx.
Proof.
  induction idx as [|i idx IH]; intros Y0 H0 results w HY.
  - exists [], [], (sess w). simpl. unfold ret.
    rewrite !app_nil_r. destruct w. repeat split. constructor.
  - simpl. unfold bind at 1, lift at 1.
    rewrite (reshape3_ok _ _ HY).
    unfold bind at 1. rewrite run_eq.
    set (fd := mk_feed H0 (mk_array3 (1, 1, 1)%Z (a2_flat Y0)) None 1.0).
    destruct (Hshape (sess w) fetches fd 1%Z 1%Z eq_refl ltac:(lia) ltac:(lia)) as [Hs Hl].
    fold fetches.
    destruct (item2_single _ Hs Hl) as [y [Hflat Hitem]].
    unfold bind at 1, lift at 1. rewrite Hitem.
    destruct (IH (v_Yout (fst (sess_run (sess w) fetches fd)))
                 (v_H (fst (sess_run (sess w) fetches fd)))
                 (results ++ [y])
                 (mk_world (snd (sess_run (sess w) fetches fd))
                    (trace w ++ [mk_call fetches fd (fst (sess_run (sess w) fetches fd))]))
                 Hl)
      as [calls [ys [s' [Hrun [Hchain [Hc Hy]]]]]].
    exists (mk_call fetches fd (fst (sess_run (sess w) fetches fd)) :: calls),
           (y :: ys), s'.
    split; [|split; [|split]].
    + rewrite Hrun. simpl trace. rewrite <- !app_assoc. reflexivity.
    + eapply chain_step; [reflexivity | exact Hitem | exact Hchain].
    + simpl. now rewrite Hc.
    + simpl. now rewrite Hy.
Qed.

(** The two zero arrays a run starts from. *)
Lemma zeros2_output : Nd.zeros2 1 1 = Ok (mk_array2 (1, 1)%Z [0%R]).
Proof. reflexivity. Qed.

Lemma zeros2_state :
  (0 <= RNN_CELLSIZE * NLAYERS)%Z ->
  Nd.zeros2 1 (RNN_CELLSIZE * NLAYERS)
  = Ok (mk_array2 (1, RNN_CELLSIZE * NLAYERS)%Z
                  (repeat 0%R (Z.to_nat (RNN_CELLSIZE * NLAYERS)))).
Proof.
  intros Hdim. unfold Nd.zeros2.
  destruct (Z.ltb_spec (RNN_CELLSIZE * NLAYERS) 0); [lia|].
  now rewrite Z.mul_1_l.
Qed.

Lemma zeros2_negative :
  (RNN_CELLSIZE * NLAYERS < 0)%Z ->
  Nd.zeros2 1 (RNN_CELLSIZE * NLAYERS) = Raise ValueError.
Proof.
  intros Hdim. unfold Nd.zeros2.
  destruct (Z.ltb_spec (RNN_CELLSIZE * NLAYERS) 0); [reflexivity | lia].
Qed.

(** What a complete run does: an optional priming execution, then the
    feedback chain. *)
Lemma prediction_run_spec (Hshape : well_shaped sess_run) prime_data run_length
      (w : world session) :
  (0 <= RNN_CELLSIZE * NLAYERS)%Z ->
  let Hz := mk_array2 (1, RNN_CELLSIZE * NLAYERS)%Z
                      (repeat 0%R (Z.to_nat (RNN_CELLSIZE * NLAYERS))) in
  let fd0 := mk_feed Hz (mk_array3 (1, Py.len (elems prime_data), 1)%Z (elems prime_data))
                     None 1.0 in
  let v0 := fst (sess_run (sess w) fetches fd0) in
  exists priming calls ys Y0 H0 s0 s',
    prediction_run RNN_CELLSIZE NLAYERS Yout H sess_run prime_data run_length w
    = (Ok (np_array ys), mk_world s' (trace w ++ priming ++ calls))
    /\ feedback_chain Yout H sess_run s0 Y0 H0 calls ys s'
    /\ length calls = Z.to_nat run_length
    /\ length ys = Z.to_nat run_length
    /\ ((elems prime_data = [] /\ priming = []
         /\ Y0 = mk_array2 (1, 1)%Z [0%R] /\ H0 = Hz /\ s0 = sess w)
        \/ (elems prime_data <> [] /\ priming = [mk_call fetches fd0 v0]
            /\ Y0 = v_Yout v0 /\ H0 = v_H v0
            /\ s0 = snd (sess_run (sess w) fetches fd0))).
Proof.
  intros Hdim Hz fd0 v0. unfold prediction_run.
  unfold bind at 1, lift at 1. rewrite (zeros2_state Hdim). fold Hz.
  unfold bind at 1, lift at 1. rewrite zeros2_output.
  destruct (Z.ltb_spec 0 (Py.len (elems prime_data))) as [Hpos|Hzero].
  - unfold bind at 1. unfold bind at 1, lift at 1.
    rewrite (reshape3_ok _ _ eq_refl).
    unfold bind at 1. rewrite run_eq. unfold ret at 1.
    fold fetches fd0. fold v0.
    destruct (Hshape (sess w) fetches fd0 1%Z _ eq_refl ltac:(lia) Hpos) as [Hs Hl].
    fold v0 in Hs, Hl.
    destruct (feedback_loop_chain Hshape (Py.range run_length) (v_Yout v0) (v_H v0) []
                (mk_world (snd (sess_run (sess w) fetches fd0))
                          (trace w ++ [mk_call fetches fd0 v0])) Hl)
      as [calls [ys [s' [Hrun [Hchain [Hc Hy]]]]]].
    rewrite range_length in Hc, Hy.
    exists [mk_call fetches fd0 v0], calls, ys, (v_Yout v0), (v_H v0),
           (snd (sess_run (sess w) fetches fd0)), s'.
    split; [|split; [exact Hchain | split; [exact Hc | split; [exact Hy|]]]].
    + unfold bind at 1. rewrite Hrun. unfold ret. simpl.
      now rewrite <- app_assoc.
    + right. repeat split.
      intros Hnil. rewrite Hnil in Hpos. cbv in Hpos. discriminate.
  - unfold bind at 1. unfold ret at 1.
    destruct (feedback_loop_chain Hshape (Py.range run_length)
                (mk_array2 (1, 1)%Z [0%R]) Hz [] w eq_refl)
      as [calls [ys [s' [Hrun [Hchain [Hc Hy]]]]]].
    rewrite range_length in Hc, Hy.
    exists [], calls, ys, (mk_array2 (1, 1)%Z [0%R]), Hz, (sess w), s'.
    split; [|split; [exact Hchain | split; [exact Hc | split; [exact Hy|]]]].
    + unfold bind at 1. rewrite Hrun. unfold ret. reflexivity.
    + left. repeat split.
      destruct (elems prime_data); [reflexivity|].
      unfold Py.len in Hzero. simpl in Hzero. lia.
Qed.

(** A property shared by every execution of the inference code holds of all
    executions the loop, and the whole run, add to the trace. *)
Section EveryExecution.

Variable P : run_call -> Prop.
Hypothesis P_inference :
  forall H_ Yin v, P (mk_call fetches (mk_feed H_ Yin None 1.0) v).

Lemma feedback_loop_all :
  forall idx Y0 H0 results (w : world session),
    exists calls,
      trace (snd (feedback_loop Yout H sess_run idx Y0 H0 results w)) = trace w ++ calls
      /\ Forall P calls.
Proof.
  induction idx as [|i idx IH]; intros Y0 H0 results w.
  - exists []. simpl. rewrite app_nil_r. split; [reflexivity | constructor].
  - simpl. unfold bind at 1, lift at 1.
    destruct (Nd.reshape3 (a2_flat Y0) 1 1 1) as [Yin|e].
    2:{ exists []. simpl. rewrite app_nil_r. split; [reflexivity | constructor]. }
    unfold bind at 1. rewrite run_eq. fold fetches.
    set (c := mk_call _ _ _).
    assert (Hc : P c) by apply P_inference.
    unfold bind at 1, lift at 1.
    destruct (Nd.item2 _ 0 0) as [y|e].
    2:{ exists [c]. simpl. split; [reflexivity|]. constructor; [exact Hc | constructor]. }
    match goal with
    | |- context [feedback_loop _ _ _ idx ?Y ?Hs ?r ?w'] =>
        destruct (IH Y Hs r w') as [calls [Ht Hp]]
    end.
    exists (c :: calls). split.
    + rewrite Ht. simpl trace. now rewrite <- app_assoc.
    + constructor; [exact Hc | exact Hp].
Qed.

Lemma prediction_run_all prime_data run_length (w : world session) :
  exists calls,
    trace (snd (prediction_run RNN_CELLSIZE NLAYERS Yout H sess_run
                               prime_data run_length w))
    = trace w ++ calls
    /\ Forall P calls.
Proof.
  unfold prediction_run.
  unfold bind at 1, lift at 1.
  destruct (Nd.zeros2 1 (RNN_CELLSIZE * NLAYERS)) as [Hz|e].
  2:{ exists []. simpl. rewrite app_nil_r. split; [reflexivity | constructor]. }
  unfold bind at 1, lift at 1. rewrite zeros2_output.
  destruct (0 <? Py.len (elems prime_data))%Z.
  - unfold bind at 1. unfold bind at 1, lift at 1.
    destruct (Nd.reshape3 _ _ _ _) as [Yin|e].
    2:{ exists []. simpl. rewrite app_nil_r. split; [reflexivity | constructor]. }
    unfold bind at 1. rewrite run_eq. unfold ret at 1. fold fetches.
    set (c := mk_call _ _ _).
    assert (Hc : P c) by apply P_inference.
    unfold bind at 1.
    match goal with
    | |- context [feedback_loop _ _ _ ?idx ?Y ?Hs ?r ?w'] =>
        destruct (feedback_loop_all idx Y Hs r w') as [calls [Ht Hp]];
        destruct (feedback_loop Yout H sess_run idx Y Hs r w') as [[ys|e] w'']
    end; simpl in Ht |- *; exists (c :: calls);
      (split; [rewrite Ht; now rewrite <- app_assoc
              | constructor; [exact Hc | exact Hp]]).
  - unfold bind at 1. unfold ret at 1.
    unfold bind at 1.
    match goal with
    | |- context [feedback_loop _ _ _ ?idx ?Y ?Hs ?r ?w'] =>
        destruct (feedback_loop_all idx Y Hs r w') as [calls [Ht Hp]];
        destruct (feedback_loop Yout H sess_run idx Y Hs r w') as [[ys|e] w'']
    end; simpl in Ht |- *; exists calls; (split; [exact Ht | exact Hp]).
Qed.

End EveryExecution.

Lemma prediction_run_pkeep prime_data run_length (w : world session) :
  exists calls,
    trace (snd (prediction_run RNN_CELLSIZE NLAYERS Yout H sess_run
                               prime_data run_length w))
    = trace w ++ calls
    /\ Forall (fun c => feed_dropout_pkeep (call_feed c) = 1%R) calls.
Proof.
  apply prediction_run_all. intros H_ Yin v. simpl. lra.
Qed.

(** Reading a chain: what the first execution is fed, how consecutive
    executions are linked, and which output each one contributes. *)
Lemma feedback_chain_first s Y0 H0 c calls ys s' :
  feedback_chain Yout H sess_run s Y0 H0 (c :: calls) ys s' ->
  call_feed c = mk_feed H0 (mk_array3 (1, 1, 1)%Z (a2_flat Y0)) None 1.0.
Proof. intros Hc. inversion Hc; subst. reflexivity. Qed.

Lemma feedback_chain_links s Y0 H0 calls ys s' :
  feedback_chain Yout H sess_run s Y0 H0 calls ys s' ->
  forall i c c',
    nth_error calls i = Some c -> nth_error calls (S i) = Some c' ->
    call_feed c'
    = mk_feed (v_H (call_out c))
              (mk_array3 (1, 1, 1)%Z (a2_flat (v_Yout (call_out c)))) None 1.0.
Proof.
  induction 1 as [|s Y0 H0 c calls y ys s' fs fd Hc Hitem Hrest IH];
    intros i c1 c2 H1 H2.
  - destruct i; discriminate.
  - destruct i as [|i]; simpl in H1, H2.
    + inversion H1; subst c1.
      destruct calls as [|c3 calls]; [discriminate|].
      simpl in H2. inversion H2; subst c3.
      exact (feedback_chain_first _ _ _ _ _ _ _ Hrest).
    + exact (IH i c1 c2 H1 H2).
Qed.

(** Each execution of a chain returns one value, and that value is the
    corresponding result. *)
Lemma feedback_chain_values (Hshape : well_shaped sess_run) s Y0 H0 calls ys s' :
  feedback_chain Yout H sess_run s Y0 H0 calls ys s' ->
  forall i c,
    nth_error calls i = Some c ->
    exists y, nth_error ys i = Some y
              /\ a2_shape (v_Yout (call_out c)) = (1, 1)%Z
              /\ a2_flat (v_Yout (call_out c)) = [y].
Proof.
  induction 1 as [|s Y0 H0 c calls y ys s' fs fd Hc Hitem Hrest IH]; intros i c1 H1.
  - destruct i; discriminate.
  - destruct i as [|i]; simpl in H1.
    + inversion H1; subst c1. exists y. split; [reflexivity|].
      destruct (Hshape s fs fd 1%Z 1%Z eq_refl ltac:(lia) ltac:(lia)) as [Hs Hl].
      rewrite Hc in Hitem |- *. cbn [call_out] in Hitem |- *.
      destruct (item2_single _ Hs Hl) as [y' [Hflat Hitem']].
      rewrite Hitem' in Hitem. inversion Hitem; subst y'.
      split; assumption.
    + exact (IH i c1 H1).
Qed.

(** C1. For every [run_length >= 0] (and a state size
    [RNN_CELLSIZE * NLAYERS] that [np.zeros] accepts),
    [prediction_run(prime_data, run_length)] performs, after the priming
    execution it makes for a non-empty [prime_data], exactly [run_length]
    feedback executions: each runs in the session left by the execution before
    it and is fed that execution's output [Yout_] (as one one-sample sequence)
    and state [H_] (the priming execution's for the first one; the zero arrays
    when there was no priming), and the returned array holds exactly the
    [run_length] values these executions returned as [Yout], in the order
    they were produced. *)
Theorem prediction_run_feedback prime_data run_length (w : world session) :
  well_shaped sess_run ->
  (0 <= RNN_CELLSIZE * NLAYERS)%Z -> (0 <= run_length)%Z ->
  let Hz := mk_array2 (1, RNN_CELLSIZE * NLAYERS)%Z
                      (repeat 0%R (Z.to_nat (RNN_CELLSIZE * NLAYERS))) in
  let fd0 := mk_feed Hz (mk_array3 (1, Py.len (elems prime_data), 1)%Z (elems prime_data))
                     None 1.0 in
  let v0 := fst (sess_run (sess w) [FetchNode Yout; FetchNode H] fd0) in
  exists results w' priming calls Y0 H0 s0,
    prediction_run RNN_CELLSIZE NLAYERS Yout H sess_run prime_data run_length w
    = (Ok results, w')
    /\ trace w' = trace w ++ priming ++ calls
    /\ Py.len calls = run_length
    /\ Py.len (elems results) = run_length
    /\ ((elems prime_data = [] /\ priming = []
         /\ Y0 = mk_array2 (1, 1)%Z [0%R] /\ H0 = Hz /\ s0 = sess w)
        \/ (elems prime_data <> []
            /\ priming = [mk_call [FetchNode Yout; FetchNode H] fd0 v0]
            /\ Y0 = v_Yout v0 /\ H0 = v_H v0
            /\ s0 = snd (sess_run (sess w) [FetchNode Yout; FetchNode H] fd0)))
    /\ feedback_chain Yout H sess_run s0 Y0 H0 calls (elems results) (sess w')
    /\ (forall c, nth_error calls 0 = Some c ->
          call_feed c = mk_feed H0 (mk_array3 (1, 1, 1)%Z (a2_flat Y0)) None 1.0)
    /\ (forall i c c',
          nth_error calls i = Some c -> nth_error calls (S i) = Some c' ->
          call_feed c'
          = mk_feed (v_H (call_out c))
                    (mk_array3 (1, 1, 1)%Z (a2_flat (v_Yout (call_out c)))) None 1.0)
    /\ (forall i c,
          nth_error calls i = Some c ->
          exists y, nth_error (elems results) i = Some y
                    /\ a2_shape (v_Yout (call_out c)) = (1, 1)%Z
                    /\ a2_flat (v_Yout (call_out c)) = [y]).
Proof.
  intros Hshape Hdim Hn Hz fd0 v0.
  destruct (prediction_run_spec Hshape prime_data run_length w Hdim)
    as [priming [calls [ys [Y0 [H0 [s0 [s' [Hrun [Hchain [Hc [Hy Hprime]]]]]]]]]]].
  exists (np_array ys), (mk_world s' (trace w ++ priming ++ calls)),
         priming, calls, Y0, H0, s0.
  split; [exact Hrun|]. split; [reflexivity|].
  split; [unfold Py.len; lia|]. split; [unfold Py.len; simpl; lia|].
  split; [exact Hprime|].
  split; [exact Hchain|]. split; [|split].
  - intros c Hc0. destruct calls as [|c1 calls]; [discriminate|].
    inversion Hc0; subst c1.
    exact (feedback_chain_first _ _ _ _ _ _ _ Hchain).
  - exact (feedback_chain_links _ _ _ _ _ _ Hchain).
  - exact (feedback_chain_values Hshape _ _ _ _ _ _ Hchain).
Qed.

(** C9. With an empty [prime_data] the priming execution is skipped: all
    executions of the run are feedback executions, the first of them is fed
    the zero output [[0]] (as one one-sample sequence) and the zero state,
    and the run still returns exactly [run_length] values, those the
    executions returned. *)
Theorem prediction_run_unprimed prime_data run_length (w : world session) :
  well_shaped sess_run ->
  (0 <= RNN_CELLSIZE * NLAYERS)%Z -> (0 <= run_length)%Z ->
  Py.len (elems prime_data) = 0%Z ->
  let Hz := mk_array2 (1, RNN_CELLSIZE * NLAYERS)%Z
                      (repeat 0%R (Z.to_nat (RNN_CELLSIZE * NLAYERS))) in
  exists results w' calls,
    prediction_run RNN_CELLSIZE NLAYERS Yout H sess_run prime_data run_length w
    = (Ok results, w')
    /\ trace w' = trace w ++ calls
    /\ feedback_chain Yout H sess_run (sess w) (mk_array2 (1, 1)%Z [0%R]) Hz
                      calls (elems results) (sess w')
    /\ Py.len calls = run_length
    /\ Py.len (elems results) = run_length
    /\ (forall c, nth_error calls 0 = Some c ->
          call_feed c = mk_feed Hz (mk_array3 (1, 1, 1)%Z [0%R]) None 1.0
          /\ call_out c = fst (sess_run (sess w) [FetchNode Yout; FetchNode H]
                                        (call_feed c))
          /\ Forall (fun x => x = 0%R) (a2_flat (feed_Hin (call_feed c))))
    /\ (forall i c,
          nth_error calls i = Some c ->
          exists y, nth_error (elems results) i = Some y
                    /\ a2_flat (v_Yout (call_out c)) = [y]).
Proof.
  intros Hshape Hdim Hn Hempty Hz.
  destruct (prediction_run_spec Hshape prime_data run_length w Hdim)
    as [priming [calls [ys [Y0 [H0 [s0 [s' [Hrun [Hchain [Hc [Hy Hprime]]]]]]]]]]].
  destruct Hprime as [[_ [-> [-> [-> ->]]]]|[Hne _]].
  2:{ exfalso. apply Hne. destruct (elems prime_data); [reflexivity|].
      unfold Py.len in Hempty. simpl in Hempty. lia. }
  exists (np_array ys), (mk_world s' (trace w ++ [] ++ calls)), calls.
  split; [exact Hrun|]. split; [reflexivity|]. split; [exact Hchain|].
  split; [unfold Py.len; lia|]. split; [unfold Py.len; simpl; lia|]. split.
  - intros c Hc0. destruct calls as [|c1 calls]; [discriminate|].
    inversion Hc0; subst c1.
    pose proof (feedback_chain_first _ _ _ _ _ _ _ Hchain) as Hfeed.
    split; [exact Hfeed|]. split.
    + inversion Hchain; subst. reflexivity.
    + rewrite Hfeed. simpl.
      apply Forall_forall. intros x Hx. now apply repeat_spec in Hx.
  - intros i c Hi.
    destruct (feedback_chain_values Hshape _ _ _ _ _ _ Hchain i c Hi)
      as [y [Hy' [_ Hflat]]].
    exists y. split; assumption.
Qed.

End PredictionFacts.

Lemma example_well_shaped : well_shaped Example.sess_run.
Proof.
  intros s fs fd b l Hs Hb Hl. unfold Example.sess_run. rewrite Hs. simpl.
  split; [reflexivity|]. unfold Py.len. rewrite repeat_length. lia.
Qed.

(** Instances: three predictions after priming on two samples, and three
    predictions without priming, with the stand-in network. *)
Lemma prediction_run_feedback_witness :
  let Hz := mk_array2 (1, Hyper.RNN_CELLSIZE * Hyper.NLAYERS)%Z
                      (repeat 0%R (Z.to_nat (Hyper.RNN_CELLSIZE * Hyper.NLAYERS))) in
  let fd0 := mk_feed Hz (mk_array3 (1, Py.len (elems Example.prime_data), 1)%Z
                                   (elems Example.prime_data))
                     None 1.0 in
  let v0 := fst (Example.sess_run (sess Example.w0)
                                  [FetchNode Hyper.Yout; FetchNode Hyper.H] fd0) in
  exists results w' priming calls Y0 H0 s0,
    prediction_run Hyper.RNN_CELLSIZE Hyper.NLAYERS Hyper.Yout Hyper.H Example.sess_run
                   Example.prime_data 3 Example.w0
    = (Ok results, w')
    /\ trace w' = trace Example.w0 ++ priming ++ calls
    /\ Py.len calls = 3%Z
    /\ Py.len (elems results) = 3%Z
    /\ ((elems Example.prime_data = [] /\ priming = []
         /\ Y0 = mk_array2 (1, 1)%Z [0%R] /\ H0 = Hz /\ s0 = sess Example.w0)
        \/ (elems Example.prime_data <> []
            /\ priming = [mk_call [FetchNode Hyper.Yout; FetchNode Hyper.H] fd0 v0]
            /\ Y0 = v_Yout v0 /\ H0 = v_H v0
            /\ s0 = snd (Example.sess_run (sess Example.w0)
                                          [FetchNode Hyper.Yout; FetchNode Hyper.H] fd0)))
    /\ feedback_chain Hyper.Yout Hyper.H Example.sess_run s0 Y0 H0 calls
                      (elems results) (sess w')
    /\ (forall c, nth_error calls 0 = Some c ->
          call_feed c = mk_feed H0 (mk_array3 (1, 1, 1)%Z (a2_flat Y0)) None 1.0)
    /\ (forall i c c',
          nth_error calls i = Some c -> nth_error calls (S i) = Some c' ->
          call_feed c'
          = mk_feed (v_H (call_out c))
                    (mk_array3 (1, 1, 1)%Z (a2_flat (v_Yout (call_out c)))) None 1.0)
    /\ (forall i c,
          nth_error calls i = Some c ->
          exists y, nth_error (elems results) i = Some y
                    /\ a2_shape (v_Yout (call_out c)) = (1, 1)%Z
                    /\ a2_flat (v_Yout (call_out c)) = [y]).
Proof.
  apply (prediction_run_feedback Hyper.RNN_CELLSIZE Hyper.NLAYERS Hyper.Yout Hyper.H
           nat Example.sess_run Example.prime_data 3%Z Example.w0).
  - exact example_well_shaped.
  - unfold Hyper.RNN_CELLSIZE, Hyper.NLAYERS. lia.
  - lia.
Defined.

Lemma prediction_run_unprimed_witness :
  let Hz := mk_array2 (1, Hyper.RNN_CELLSIZE * Hyper.NLAYERS)%Z
                      (repeat 0%R (Z.to_nat (Hyper.RNN_CELLSIZE * Hyper.NLAYERS))) in
  exists results w' calls,
    prediction_run Hyper.RNN_CELLSIZE Hyper.NLAYERS Hyper.Yout Hyper.H Example.sess_run
                   Example.empty_data 3 Example.w0
    = (Ok results, w')
    /\ trace w' = trace Example.w0 ++ calls
    /\ feedback_chain Hyper.Yout Hyper.H Example.sess_run (sess Example.w0)
                      (mk_array2 (1, 1)%Z [0%R]) Hz
                      calls (elems results) (sess w')
    /\ Py.len calls = 3%Z
    /\ Py.len (elems results) = 3%Z
    /\ (forall c, nth_error calls 0 = Some c ->
          call_feed c = mk_feed Hz (mk_array3 (1, 1, 1)%Z [0%R]) None 1.0
          /\ call_out c
             = fst (Example.sess_run (sess Example.w0)
                                     [FetchNode Hyper.Yout; FetchNode Hyper.H]
                                     (call_feed c))
          /\ Forall (fun x => x = 0%R) (a2_flat (feed_Hin (call_feed c))))
    /\ (forall i c,
          nth_error calls i = Some c ->
          exists y, nth_error (elems results) i = Some y
                    /\ a2_flat (v_Yout (call_out c)) = [y]).
Proof.
  apply (prediction_run_unprimed Hyper.RNN_CELLSIZE Hyper.NLAYERS Hyper.Yout Hyper.H
           nat Example.sess_run Example.empty_data 3%Z Example.w0).
  - exact example_well_shaped.
  - unfold Hyper.RNN_CELLSIZE, Hyper.NLAYERS. lia.
  - lia.
  - reflexivity.
Defined.

(** ** [model_rnn_fn] *)

Lemma range_snoc (n : Z) : (0 <= n)%Z -> Py.range (n + 1) = Py.range n ++ [n].
Proof.
  intros Hn. unfold Py.range.
  replace (Z.to_nat (n + 1)) with (S (Z.to_nat n)) by lia.
  rewrite seq_S, map_app. simpl. now rewrite Z2Nat.id.
Qed.

Lemma range_empty (n : Z) : (n <= 0)%Z -> Py.range n = [].
Proof.
  intros Hn. unfold Py.range. now replace (Z.to_nat n) with O by lia.
Qed.

Lemma range_NoDup (n : Z) : NoDup (Py.range n).
Proof.
  unfold Py.range. apply Injective_map_NoDup.
  - intros a b. apply Nat2Z.inj.
  - apply seq_NoDup.
Qed.

Lemma slice_all_but_last {A} (l : list A) (x : A) :
  Py.slice (l ++ [x]) None (Some (-1)%Z) = l.
Proof.
  unfold Py.slice, Py.clamp, Py.len. rewrite length_app. simpl length.
  destruct (Z.ltb_spec (-1) 0); [|lia].
  replace (Z.to_nat _) with (length l) by lia.
  simpl skipn. rewrite firstn_app, Nat.sub_diag, firstn_all. simpl.
  apply app_nil_r.
Qed.

Lemma getitem_last {A} (l : list A) (x : A) : Py.getitem (l ++ [x]) (-1) = Ok x.
Proof.
  unfold Py.getitem, Py.len. rewrite length_app. simpl length.
  destruct (Z.ltb_spec (-1) 0); [|lia].
  replace (-1 + Z.of_nat (length l + 1))%Z with (Z.of_nat (length l)) by lia.
  destruct (Z.leb_spec 0 (Z.of_nat (length l))); [|lia].
  destruct (Z.ltb_spec (Z.of_nat (length l)) (Z.of_nat (length l + 1))); [|lia].
  simpl. rewrite Nat2Z.id, nth_error_app2, Nat.sub_diag by lia. reflexivity.
Qed.

Section ModelFacts.

Variables RNN_CELLSIZE NLAYERS : Z.
Variables features Hin labels dropout_pkeep : node.

Let gru (i : Z) : rnn_cell := GRUCell i RNN_CELLSIZE.
Let dcells : list rnn_cell :=
  map (fun cell => DropoutWrapper cell dropout_pkeep) (map gru (Py.range (NLAYERS - 1)))
  ++ [gru (NLAYERS - 1)%Z].
Let Yr : node :=
  Reshape (Dense (Reshape (DynamicRnnOutputs (MultiRNNCell dcells false) features Hin)
                          [Mul (ShapeAt features 0) (ShapeAt features 1);
                           Const RNN_CELLSIZE]) 1)
          [ShapeAt features 0; ShapeAt features 1; Const 1].

Lemma cells_snoc :
  (1 <= NLAYERS)%Z ->
  map gru (Py.range NLAYERS) = map gru (Py.range (NLAYERS - 1)) ++ [gru (NLAYERS - 1)%Z].
Proof.
  intros Hn. replace NLAYERS with (NLAYERS - 1 + 1)%Z at 1 by lia.
  rewrite range_snoc by lia. now rewrite map_app.
Qed.

(** The graph built for at least one layer. *)
Lemma model_rnn_fn_unfold :
  (1 <= NLAYERS)%Z ->
  model_rnn_fn RNN_CELLSIZE NLAYERS features Hin labels dropout_pkeep
  = Ok (LastStep Yr,
        DynamicRnnState (MultiRNNCell dcells false) features Hin,
        MeanSquaredError Yr labels,
        Minimize (AdamOptimizer 0.01) (MeanSquaredError Yr labels)).
Proof.
  intros Hn. unfold model_rnn_fn. fold gru.
  rewrite (cells_snoc Hn), slice_all_but_last, getitem_last. reflexivity.
Qed.

(** With no layer there is no last cell to take. *)
Lemma model_rnn_fn_no_layer :
  (NLAYERS <= 0)%Z ->
  model_rnn_fn RNN_CELLSIZE NLAYERS features Hin labels dropout_pkeep = Raise IndexError.
Proof.
  intros Hn. unfold model_rnn_fn. rewrite (range_empty _ Hn). reflexivity.
Qed.

Lemma cells_are_gru l : Forall (fun c => is_gru c = true) (map gru l).
Proof. apply Forall_forall. intros c Hc. apply in_map_iff in Hc as [i [<- _]]. reflexivity. Qed.

Lemma cells_NoDup : NoDup (map gru (Py.range NLAYERS)).
Proof.
  apply Injective_map_NoDup; [|apply range_NoDup].
  intros a b Hab. now inversion Hab.
Qed.

(** C5. [model_rnn_fn] builds [NLAYERS] distinct GRU cells of size
    [RNN_CELLSIZE] (two for the notebook's [NLAYERS = 2]), stacks exactly
    these cells, in order, into one [MultiRNNCell], and unrolls that single
    cell over the input sequence with [dynamic_rnn]: both the state [H] and
    the outputs from which [Yout] is computed come from it. *)
Theorem model_rnn_fn_stacked_gru :
  (1 <= NLAYERS)%Z ->
  exists cells stack Yout H loss train_op,
    model_rnn_fn RNN_CELLSIZE NLAYERS features Hin labels dropout_pkeep
    = Ok (Yout, H, loss, train_op)
    /\ cells = map (fun i => GRUCell i RNN_CELLSIZE) (Py.range NLAYERS)
    /\ Py.len cells = NLAYERS
    /\ Forall (fun c => is_gru c = true) cells
    /\ NoDup cells
    /\ map unwrap stack = cells
    /\ H = DynamicRnnState (MultiRNNCell stack false) features Hin
    /\ Yout = LastStep
                (Reshape
                   (Dense
                      (Reshape (DynamicRnnOutputs (MultiRNNCell stack false) features Hin)
                               [Mul (ShapeAt features 0) (ShapeAt features 1);
                                Const RNN_CELLSIZE]) 1)
                   [ShapeAt features 0; ShapeAt features 1; Const 1]).
Proof.
  intros Hn.
  exists (map gru (Py.range NLAYERS)), dcells.
  do 4 eexists. split; [exact (model_rnn_fn_unfold Hn)|].
  split; [reflexivity|].
  split; [unfold Py.len; rewrite length_map, range_length; lia|].
  split; [apply cells_are_gru|]. split; [apply cells_NoDup|].
  split; [|split; reflexivity].
  unfold dcells. rewrite map_app, map_map. simpl.
  rewrite map_id. symmetry. exact (cells_snoc Hn).
Qed.

(** The stack handed to [MultiRNNCell]: dropout on every cell but the last. *)
Lemma model_rnn_fn_dropout g :
  model_rnn_fn RNN_CELLSIZE NLAYERS features Hin labels dropout_pkeep = Ok g ->
  exists front last_cell,
    stacked_cells g
    = map (fun cell => DropoutWrapper cell dropout_pkeep) front ++ [last_cell]
    /\ front ++ [last_cell] = map (fun i => GRUCell i RNN_CELLSIZE) (Py.range NLAYERS)
    /\ is_gru last_cell = true /\ has_dropout last_cell = false.
Proof.
  intros Hg.
  destruct (Z.le_gt_cases 1 NLAYERS) as [Hn|Hn].
  - rewrite (model_rnn_fn_unfold Hn) in Hg. inversion Hg; subst g.
    exists (map gru (Py.range (NLAYERS - 1))), (gru (NLAYERS - 1)%Z).
    split; [reflexivity|]. split; [symmetry; exact (cells_snoc Hn)|].
    split; reflexivity.
  - rewrite model_rnn_fn_no_layer in Hg by lia. discriminate.
Qed.

End ModelFacts.

Lemma model_rnn_fn_stacked_gru_witness :
  exists cells stack Yout H loss train_op,
    model_rnn_fn Hyper.RNN_CELLSIZE Hyper.NLAYERS
                 samples (Hin Hyper.RNN_CELLSIZE Hyper.NLAYERS) labels dropout_pkeep
    = Ok (Yout, H, loss, train_op)
    /\ cells = map (fun i => GRUCell i Hyper.RNN_CELLSIZE) (Py.range Hyper.NLAYERS)
    /\ Py.len cells = Hyper.NLAYERS
    /\ Forall (fun c => is_gru c = true) cells
    /\ NoDup cells
    /\ map unwrap stack = cells
    /\ H = DynamicRnnState (MultiRNNCell stack false) samples
                           (Hin Hyper.RNN_CELLSIZE Hyper.NLAYERS)
    /\ Yout = LastStep
                (Reshape
                   (Dense
                      (Reshape (DynamicRnnOutputs (MultiRNNCell stack false) samples
                                                  (Hin Hyper.RNN_CELLSIZE Hyper.NLAYERS))
                               [Mul (ShapeAt samples 0) (ShapeAt samples 1);
                                Const Hyper.RNN_CELLSIZE]) 1)
                   [ShapeAt samples 0; ShapeAt samples 1; Const 1]).
Proof.
  apply (model_rnn_fn_stacked_gru Hyper.RNN_CELLSIZE Hyper.NLAYERS
           samples (Hin Hyper.RNN_CELLSIZE Hyper.NLAYERS) labels dropout_pkeep).
  unfold Hyper.NLAYERS. lia.
Defined.

(** The four handles of the notebook are what [model_rnn_fn] returns. *)
Lemma model_instantiated :
  Hyper.model = Ok (Hyper.Yout, Hyper.H, Hyper.loss, Hyper.train_op).
Proof. reflexivity. Qed.

(** C10. Dropout is off at inference and absent from the last layer: every
    execution made by [prediction_run] (the priming one and each feedback
    iteration, whether or not the run completes) is fed keep probability 1,
    and the stack [model_rnn_fn] hands to [MultiRNNCell] wraps every GRU cell
    but the last in [DropoutWrapper], the last being a bare GRU cell. *)
Theorem dropout_off_at_inference_and_last_layer
        (RNN_CELLSIZE NLAYERS : Z) (Yout H : node)
        (session : Type) (sess_run : session -> list fetch -> feed -> fetched * session)
        (prime_data : ndarray1) (run_length : Z) (w : world session)
        (features Hin labels dropout_pkeep : node) :
  (exists calls,
      trace (snd (prediction_run RNN_CELLSIZE NLAYERS Yout H sess_run
                                 prime_data run_length w))
      = trace w ++ calls
      /\ Forall (fun c => feed_dropout_pkeep (call_feed c) = 1%R) calls)
  /\ (forall g,
        model_rnn_fn RNN_CELLSIZE NLAYERS features Hin labels dropout_pkeep = Ok g ->
        exists front last_cell,
          stacked_cells g
          = map (fun cell => DropoutWrapper cell dropout_pkeep) front ++ [last_cell]
          /\ front ++ [last_cell]
             = map (fun i => GRUCell i RNN_CELLSIZE) (Py.range NLAYERS)
          /\ is_gru last_cell = true /\ has_dropout last_cell = false).
Proof.
  split.
  - apply prediction_run_pkeep.
  - apply model_rnn_fn_dropout.
Qed.

Lemma dropout_off_at_inference_and_last_layer_witness :
  exists front last_cell,
    stacked_cells (Hyper.Yout, Hyper.H, Hyper.loss, Hyper.train_op)
    = map (fun cell => DropoutWrapper cell dropout_pkeep) front ++ [last_cell]
    /\ front ++ [last_cell]
       = map (fun i => GRUCell i Hyper.RNN_CELLSIZE) (Py.range Hyper.NLAYERS)
    /\ is_gru last_cell = true /\ has_dropout last_cell = false.
Proof.
  apply (proj2 (dropout_off_at_inference_and_last_layer
                  Hyper.RNN_CELLSIZE Hyper.NLAYERS Hyper.Yout Hyper.H
                  nat Example.sess_run Example.prime_data 3%Z Example.w0
                  samples (Hin Hyper.RNN_CELLSIZE Hyper.NLAYERS) labels dropout_pkeep)).
  reflexivity.
Defined.

(** ** The training loop *)

Section TrainingFacts.

Variable DROPOUT_PKEEP : R.
Variables Yout H loss : node.
Variable train_op : op.
Variable session : Type.
Variable sess_run : session -> list fetch -> feed -> fetched * session.

(** The loop returns after one execution per batch, each made in the session
    left by the one before it. *)
Lemma training_steps_chain :
  forall batches i H0 losses indices (w : world session),
  exists calls Hf losses' indices' s',
    training_steps DROPOUT_PKEEP Yout H loss train_op sess_run
                   batches i H0 losses indices w
    = (Ok (Hf, losses', indices'), mk_world s' (trace w ++ calls))
    /\ training_chain DROPOUT_PKEEP Yout H loss train_op sess_run
                      (sess w) H0 batches calls s' Hf
    /\ Forall2 (training_call DROPOUT_PKEEP Yout H loss train_op) calls batches.
Proof.
  induction batches as [|[[x y] e] batches IH]; intros i H0 losses indices w.
  - exists [], H0, losses, indices, (sess w). simpl. unfold ret.
    rewrite app_nil_r. destruct w.
    split; [reflexivity|]. split; constructor.
  - simpl. unfold bind at 1. rewrite run_eq.
    set (c := mk_call _ _ _). set (w1 := mk_world _ _).
    destruct (i mod 10 =? 0)%Z;
      match goal with
      | |- context [training_steps _ _ _ _ _ _ batches ?j ?Hs ?l ?ix w1] =>
          destruct (IH j Hs l ix w1)
            as [calls [Hf [losses' [indices' [s' [Hrun [Hchain Hcalls]]]]]]]
      end;
      exists (c :: calls), Hf, losses', indices', s';
      (split; [rewrite Hrun; subst w1; simpl trace; now rewrite <- app_assoc
              | split; [apply training_step; [reflexivity | exact Hchain]
                       | constructor; [repeat split | exact Hcalls]]]).
Qed.

End TrainingFacts.

(** C4. The model is trained by minimising a loss: the [train_op] returned by
    [model_rnn_fn] is [minimize(loss)] of the (gradient-based) Adam optimizer,
    and the loss is the mean squared error between [Yr], the outputs for every
    time step (shape [batchsize, seqlen, 1]), and the labels.  When the
    training loop returns it has made one execution per batch, in order: each
    execution fetches this [train_op] and this [loss] on one batch of samples
    and labels with keep probability [DROPOUT_PKEEP], runs in the session left
    by the execution before it (so on the weights that execution updated) and
    is fed the state that execution returned; the session and the state after
    the loop are those left by the last execution. *)
Theorem training_minimizes_mse
        (RNN_CELLSIZE NLAYERS : Z) (features Hin labels dropout_pkeep : node)
        (Yout H loss : node) (train_op : op)
        (DROPOUT_PKEEP : R) (session : Type)
        (sess_run : session -> list fetch -> feed -> fetched * session)
        batches i H0 losses0 indices0 (w : world session)
        Hf losses indices (w' : world session) :
  model_rnn_fn RNN_CELLSIZE NLAYERS features Hin labels dropout_pkeep
  = Ok (Yout, H, loss, train_op) ->
  training_steps DROPOUT_PKEEP Yout H loss train_op sess_run
                 batches i H0 losses0 indices0 w
  = (Ok (Hf, losses, indices), w') ->
  (exists Yn Yr,
      Yr = Reshape (Dense Yn 1) [ShapeAt features 0; ShapeAt features 1; Const 1]
      /\ Yout = LastStep Yr
      /\ loss = MeanSquaredError Yr labels
      /\ train_op = Minimize (AdamOptimizer 0.01) loss)
  /\ exists calls,
      trace w' = trace w ++ calls
      /\ length calls = length batches
      /\ training_chain DROPOUT_PKEEP Yout H loss train_op sess_run
                        (sess w) H0 batches calls (sess w') Hf
      /\ Forall (fun c => In (FetchOp train_op) (call_fetches c)
                          /\ In (FetchNode loss) (call_fetches c)) calls
      /\ Forall2 (training_call DROPOUT_PKEEP Yout H loss train_op) calls batches.
Proof.
  intros Hmodel Hsteps. split.
  - destruct (Z.le_gt_cases 1 NLAYERS) as [Hn|Hn].
    + rewrite (model_rnn_fn_unfold _ _ _ _ _ _ Hn) in Hmodel.
      inversion Hmodel; subst. do 2 eexists. repeat split.
    + rewrite model_rnn_fn_no_layer in Hmodel by lia. discriminate.
  - destruct (training_steps_chain DROPOUT_PKEEP Yout H loss train_op session sess_run
                batches i H0 losses0 indices0 w)
      as [calls [Hf' [losses' [indices' [s' [Hrun [Hchain Hcalls]]]]]]].
    rewrite Hrun in Hsteps. inversion Hsteps; subst. clear Hsteps.
    exists calls. split; [reflexivity|].
    split; [exact (Forall2_length Hcalls)|]. split; [exact Hchain|].
    split; [|exact Hcalls].
    clear Hrun Hchain. induction Hcalls as [|c b calls batches' Hc _ IH]; constructor.
    + destruct Hc as [-> _]. split; simpl; intuition.
    + exact IH.
Qed.

(** Instance: two training steps of the notebook's model on two batches of one
    row, with the stand-in network. *)
Lemma training_minimizes_mse_witness :
  let batches := [(mk_array2 (1, 2)%Z [1; 2]%R, mk_array2 (1, 2)%Z [2; 3]%R, 0%Z);
                  (mk_array2 (1, 2)%Z [3; 4]%R, mk_array2 (1, 2)%Z [4; 5]%R, 0%Z)] in
  let H0 := mk_array2 (1, 1)%Z [0%R] in
  exists Hf losses indices w',
    training_steps Hyper.DROPOUT_PKEEP Hyper.Yout Hyper.H Hyper.loss Hyper.train_op
                   Example.sess_run batches 0 H0 [] [] Example.w0
    = (Ok (Hf, losses, indices), w')
    /\ (exists Yn Yr,
           Yr = Reshape (Dense Yn 1) [ShapeAt samples 0; ShapeAt samples 1; Const 1]
           /\ Hyper.Yout = LastStep Yr
           /\ Hyper.loss = MeanSquaredError Yr labels
           /\ Hyper.train_op = Minimize (AdamOptimizer 0.01) Hyper.loss)
    /\ exists calls,
        trace w' = trace Example.w0 ++ calls
        /\ length calls = length batches
        /\ training_chain Hyper.DROPOUT_PKEEP Hyper.Yout Hyper.H Hyper.loss
                          Hyper.train_op Example.sess_run
                          (sess Example.w0) H0 batches calls (sess w') Hf
        /\ Forall (fun c => In (FetchOp Hyper.train_op) (call_fetches c)
                            /\ In (FetchNode Hyper.loss) (call_fetches c)) calls
        /\ Forall2 (training_call Hyper.DROPOUT_PKEEP Hyper.Yout Hyper.H Hyper.loss
                                  Hyper.train_op) calls batches.
Proof.
  intros batches H0.
  eexists _, _, _, _. split; [cbn; reflexivity|].
  eapply (training_minimizes_mse
           Hyper.RNN_CELLSIZE Hyper.NLAYERS
           samples (Hin Hyper.RNN_CELLSIZE Hyper.NLAYERS) labels dropout_pkeep
           Hyper.Yout Hyper.H Hyper.loss Hyper.train_op
           Hyper.DROPOUT_PKEEP nat Example.sess_run batches 0%Z H0 [] [] Example.w0);
    [reflexivity | cbn; reflexivity].
Defined.

(** ** The error metric *)

Lemma slice_in_range {A} (l : list A) (a b : Z) :
  (0 <= a <= b)%Z -> (b <= Py.len l)%Z ->
  Py.slice l (Some a) (Some b) = firstn (Z.to_nat (b - a)) (skipn (Z.to_nat a) l).
Proof.
  intros Hab Hb. unfold Py.slice, Py.clamp.
  destruct (Z.ltb_spec a 0); [lia|]. destruct (Z.ltb_spec b 0); [lia|].
  now rewrite !Z.max_r, !Z.min_l by lia.
Qed.

Lemma slice_prefix {A} (l : list A) (b : Z) :
  (0 <= b <= Py.len l)%Z -> Py.slice l None (Some b) = firstn (Z.to_nat b) l.
Proof.
  intros Hb. unfold Py.slice, Py.clamp.
  destruct (Z.ltb_spec b 0); [lia|].
  rewrite Z.max_r, Z.min_l by lia.
  now rewrite Z.sub_0_r.
Qed.

Lemma window_length {A} (l : list A) (a n : nat) :
  (a + n <= length l)%nat -> length (firstn n (skipn a l)) = n.
Proof. intros Hl. rewrite length_firstn, length_skipn. lia. Qed.

Lemma square_zip_with (a b : list R) :
  Np.square (Np.zip_with Rminus a b)
  = Np.zip_with (fun d p => ((d - p) ^ 2)%R) a b.
Proof.
  revert b. induction a as [|x a IH]; intros [|y b]; simpl; try reflexivity.
  now rewrite <- IH.
Qed.

Lemma sum_square_nonneg (a : list R) : (0 <= Np.sum (Np.square a))%R.
Proof.
  induction a as [|x a IH]; simpl; [lra|].
  pose proof (pow2_ge_0 x). lra.
Qed.

Lemma mean_square_value (a : list R) :
  a <> [] ->
  Np.math_sqrt (Np.mean (Np.square a))
  = Ok (Num (sqrt (Np.sum (Np.square a) / INR (length a)))).
Proof.
  intros Ha.
  assert (Hlen : length (Np.square a) = length a) by apply length_map.
  pose proof (sum_square_nonneg a) as Hs.
  destruct (Np.square a) as [|q qs] eqn:Hq.
  - destruct a; [congruence | discriminate].
  - unfold Np.mean, Np.math_sqrt. rewrite Hlen.
    match goal with |- context [Rlt_dec ?r 0] => destruct (Rlt_dec r 0) as [Hneg|_] end.
    + exfalso.
      assert (Hpos : (0 < INR (length a))%R)
        by (apply lt_0_INR; rewrite <- Hlen; simpl; lia).
      pose proof (Rinv_0_lt_compat _ Hpos) as Hinv.
      unfold Rdiv in Hneg. nra.
    + reflexivity.
Qed.

(** The sum NumPy takes, written as the sum of the terms number 0 to [n]. *)
Lemma sum_zip_with (f : R -> R -> R) (n : nat) :
  forall a b : list R,
    length a = S n -> length b = S n ->
    Np.sum (Np.zip_with f a b)
    = sum_f_R0 (fun i => f (nth i a 0%R) (nth i b 0%R)) n.
Proof.
  induction n as [|n IH]; intros [|x a] [|y b] Ha Hb; try discriminate.
  - destruct a; [|discriminate]. destruct b; [|discriminate].
    simpl. lra.
  - rewrite decomp_sum by lia. cbn [Nat.pred nth].
    rewrite <- (IH a b) by (simpl in Ha, Hb; lia).
    reflexivity.
Qed.

Section RmseFacts.

Variables PRIMELEN OFFSET RMSELEN : Z.

(** The two operands of the subtraction and their common length. *)
Lemma truth_window (data : ndarray1) :
  (0 <= OFFSET + PRIMELEN)%Z -> (0 <= RMSELEN)%Z ->
  (OFFSET + PRIMELEN + RMSELEN <= Py.len (elems data))%Z ->
  let truth := Py.slice (elems data) (Some (OFFSET + PRIMELEN)%Z)
                        (Some (OFFSET + PRIMELEN + RMSELEN)%Z) in
  truth = firstn (Z.to_nat RMSELEN) (skipn (Z.to_nat (OFFSET + PRIMELEN)) (elems data))
  /\ length truth = Z.to_nat RMSELEN.
Proof.
  intros HOP HR Hdata truth.
  assert (Ht : truth = firstn (Z.to_nat RMSELEN)
                         (skipn (Z.to_nat (OFFSET + PRIMELEN)) (elems data))).
  { unfold truth. rewrite slice_in_range by lia. f_equal. lia. }
  split; [exact Ht|]. rewrite Ht. apply window_length.
  unfold Py.len in Hdata. lia.
Qed.

Lemma predicted_window (results : ndarray1) :
  (0 <= RMSELEN <= Py.len (elems results))%Z ->
  let predicted := Py.slice (elems results) None (Some RMSELEN) in
  predicted = firstn (Z.to_nat RMSELEN) (elems results)
  /\ length predicted = Z.to_nat RMSELEN.
Proof.
  intros HR predicted.
  assert (Hp : predicted = firstn (Z.to_nat RMSELEN) (elems results))
    by (apply slice_prefix; lia).
  split; [exact Hp|]. rewrite Hp, length_firstn. unfold Py.len in HR. lia.
Qed.

(** The value computed when both slices are complete. *)
Lemma rmse_unfold (data results : ndarray1) :
  (0 <= OFFSET + PRIMELEN)%Z -> (0 < RMSELEN)%Z ->
  (OFFSET + PRIMELEN + RMSELEN <= Py.len (elems data))%Z ->
  (RMSELEN <= Py.len (elems results))%Z ->
  rmse PRIMELEN OFFSET RMSELEN data results
  = Ok (Num (sqrt (Np.sum (Np.zip_with (fun d p => ((d - p) ^ 2)%R)
                             (Py.slice (elems data) (Some (OFFSET + PRIMELEN)%Z)
                                       (Some (OFFSET + PRIMELEN + RMSELEN)%Z))
                             (Py.slice (elems results) None (Some RMSELEN)))
                   / IZR RMSELEN))).
Proof.
  intros HOP HR Hdata Hres.
  destruct (truth_window data HOP ltac:(lia) Hdata) as [_ Hlt].
  destruct (predicted_window results ltac:(lia)) as [_ Hlp].
  unfold rmse. cbn [elems Np.getslice].
  unfold Np.sub. rewrite broadcast_same_length by congruence.
  rewrite mean_square_value.
  - rewrite square_zip_with, zip_with_length, Hlt by congruence.
    rewrite INR_IZR_INZ, Z2Nat.id by lia. reflexivity.
  - intros Hnil. apply (f_equal (@length R)) in Hnil.
    rewrite zip_with_length, Hlt in Hnil by congruence. simpl in Hnil. lia.
Qed.

(** C3. The metric is the root-mean-square error: with [truth] the
    [RMSELEN] values of [data] from position [OFFSET+PRIMELEN] on, which
    immediately follow the priming window [data[OFFSET:OFFSET+PRIMELEN]], and
    [predicted] the first [RMSELEN] values of [results], [rmse] is the square
    root of the sum of the squared differences [truth[i] - predicted[i]],
    [i = 0 .. RMSELEN-1], divided by [RMSELEN] (in the notebook
    [RMSELEN = 128]). *)
Theorem rmse_is_root_mean_square (data results : ndarray1) :
  (0 <= OFFSET)%Z -> (0 <= PRIMELEN)%Z -> (0 < RMSELEN)%Z ->
  (OFFSET + PRIMELEN + RMSELEN <= Py.len (elems data))%Z ->
  (RMSELEN <= Py.len (elems results))%Z ->
  let prime_data := Np.getslice data (Some OFFSET) (Some (OFFSET + PRIMELEN)%Z) in
  let truth := firstn (Z.to_nat RMSELEN)
                      (skipn (Z.to_nat (OFFSET + PRIMELEN)) (elems data)) in
  let predicted := firstn (Z.to_nat RMSELEN) (elems results) in
  (exists rest, skipn (Z.to_nat OFFSET) (elems data) = elems prime_data ++ truth ++ rest)
  /\ length (elems prime_data) = Z.to_nat PRIMELEN
  /\ length truth = Z.to_nat RMSELEN
  /\ length predicted = Z.to_nat RMSELEN
  /\ rmse PRIMELEN OFFSET RMSELEN data results
     = Ok (Num (sqrt (sum_f_R0 (fun i => ((nth i truth 0 - nth i predicted 0) ^ 2)%R)
                               (Z.to_nat RMSELEN - 1)
                      / IZR RMSELEN))).
Proof.
  intros HO HP HR Hdata Hres prime_data truth predicted.
  destruct (truth_window data ltac:(lia) ltac:(lia) Hdata) as [Ht Hlt].
  destruct (predicted_window results ltac:(lia)) as [Hp Hlp].
  fold truth in Ht. fold predicted in Hp.
  assert (Hpr : elems prime_data
                = firstn (Z.to_nat PRIMELEN) (skipn (Z.to_nat OFFSET) (elems data))).
  { unfold prime_data, Np.getslice. cbn [elems].
    rewrite slice_in_range by lia. f_equal. lia. }
  split; [|split; [|split; [|split]]].
  - exists (skipn (Z.to_nat (OFFSET + PRIMELEN + RMSELEN)) (elems data)).
    rewrite Hpr. unfold truth.
    replace (Z.to_nat (OFFSET + PRIMELEN + RMSELEN))
      with (Z.to_nat RMSELEN + Z.to_nat (OFFSET + PRIMELEN))%nat by lia.
    rewrite <- skipn_skipn, firstn_skipn.
    replace (Z.to_nat (OFFSET + PRIMELEN))
      with (Z.to_nat PRIMELEN + Z.to_nat OFFSET)%nat by lia.
    rewrite <- skipn_skipn, firstn_skipn. reflexivity.
  - rewrite Hpr, window_length; unfold Py.len in Hdata; lia.
  - rewrite <- Ht. exact Hlt.
  - rewrite <- Hp. exact Hlp.
  - rewrite rmse_unfold by lia. rewrite Ht, Hp.
    rewrite (sum_zip_with _ (Z.to_nat RMSELEN - 1)).
    + reflexivity.
    + rewrite <- Ht, Hlt. lia.
    + rewrite <- Hp, Hlp. lia.
Qed.

End RmseFacts.

Lemma rmse_is_root_mean_square_witness :
  let prime_data := Np.getslice Example.series (Some Hyper.OFFSET)
                                (Some (Hyper.OFFSET + Hyper.PRIMELEN)%Z) in
  let truth := firstn (Z.to_nat Hyper.RMSELEN)
                      (skipn (Z.to_nat (Hyper.OFFSET + Hyper.PRIMELEN))
                             (elems Example.series)) in
  let predicted := firstn (Z.to_nat Hyper.RMSELEN) (elems Example.forecast) in
  (exists rest,
      skipn (Z.to_nat Hyper.OFFSET) (elems Example.series)
      = elems prime_data ++ truth ++ rest)
  /\ length (elems prime_data) = Z.to_nat Hyper.PRIMELEN
  /\ length truth = Z.to_nat Hyper.RMSELEN
  /\ length predicted = Z.to_nat Hyper.RMSELEN
  /\ rmse Hyper.PRIMELEN Hyper.OFFSET Hyper.RMSELEN Example.series Example.forecast
     = Ok (Num (sqrt (sum_f_R0 (fun i => ((nth i truth 0 - nth i predicted 0) ^ 2)%R)
                               (Z.to_nat Hyper.RMSELEN - 1)
                      / IZR Hyper.RMSELEN))).
Proof.
  apply (rmse_is_root_mean_square Hyper.PRIMELEN Hyper.OFFSET Hyper.RMSELEN
           Example.series Example.forecast);
    unfold Hyper.PRIMELEN, Hyper.OFFSET, Hyper.RMSELEN, Py.len,
           Example.series, Example.forecast;
    cbn [elems]; rewrite ?repeat_length; lia.
Defined.

(** ** The mini-batch sequencer *)

Lemma range_nth_inv (n : Z) (i : nat) (z : Z) :
  nth_error (Py.range n) i = Some z -> z = Z.of_nat i /\ (i < Z.to_nat n)%nat.
Proof.
  intros Hz.
  assert (Hi : (i < Z.to_nat n)%nat).
  { rewrite <- range_length. apply nth_error_Some. congruence. }
  rewrite (range_nth _ _ Hi) in Hz. inversion Hz. auto.
Qed.

(** Lists glued from pieces of one length [n]: piece [q] occupies the
    positions [q*n .. q*n + n - 1]. *)
Lemma flat_map_uniform_length {A B} (g : A -> list B) (n : nat) (l : list A) :
  (forall a, In a l -> length (g a) = n) ->
  length (flat_map g l) = (length l * n)%nat.
Proof.
  induction l as [|a l IH]; intros Hlen; simpl; [reflexivity|].
  rewrite length_app, (Hlen a) by (now left).
  rewrite IH; [reflexivity|].
  intros a' Ha'. apply Hlen. now right.
Qed.

Lemma flat_map_uniform_nth {A B} (g : A -> list B) (n : nat) (l : list A) :
  (forall a, In a l -> length (g a) = n) ->
  forall q r, (r < n)%nat ->
    nth_error (flat_map g l) (q * n + r)
    = match nth_error l q with
      | Some a => nth_error (g a) r
      | None => None
      end.
Proof.
  induction l as [|a l IH]; intros Hlen q r Hr.
  - simpl. rewrite !nth_error_nil. reflexivity.
  - assert (Ha : length (g a) = n) by (apply Hlen; now left).
    simpl flat_map. destruct q as [|q].
    + simpl. rewrite nth_error_app1 by lia. reflexivity.
    + rewrite nth_error_app2 by (simpl; lia).
      replace (S q * n + r - length (g a))%nat with (q * n + r)%nat by (simpl; lia).
      simpl nth_error. apply IH; [|exact Hr].
      intros a' Ha'. apply Hlen. now right.
Qed.

Lemma flat_map_uniform_chunk {A B} (g : A -> list B) (n : nat) (l : list A) :
  (forall a, In a l -> length (g a) = n) ->
  forall q a, nth_error l q = Some a ->
    firstn n (skipn (q * n) (flat_map g l)) = g a.
Proof.
  induction l as [|a0 l IH]; intros Hlen q a Hq.
  - destruct q; discriminate.
  - assert (Ha : length (g a0) = n) by (apply Hlen; now left).
    simpl flat_map. destruct q as [|q]; simpl in Hq.
    + inversion Hq; subst a0. simpl.
      rewrite firstn_app, Ha, Nat.sub_diag, firstn_all2 by lia.
      simpl. apply app_nil_r.
    + rewrite skipn_app, skipn_all2 by (simpl; lia).
      replace (S q * n - length (g a0))%nat with (q * n)%nat by (simpl; lia).
      simpl. apply IH; [|exact Hq].
      intros a' Ha'. apply Hlen. now right.
Qed.

Lemma firstn_plus {A} (a b : nat) (l : list A) :
  firstn (a + b) l = firstn a l ++ firstn b (skipn a l).
Proof.
  revert l. induction a as [|a IH]; intros l; [reflexivity|].
  destruct l as [|x l]; simpl.
  - now rewrite firstn_nil.
  - now rewrite IH.
Qed.

(** Consecutive pieces of length [n], glued together again, are a prefix. *)
Lemma chunks_concat {A} (l : list A) (n m : nat) :
  flat_map (fun k => firstn n (skipn (k * n) l)) (seq 0 m) = firstn (m * n) l.
Proof.
  induction m as [|m IH]; [reflexivity|].
  rewrite seq_S, flat_map_app, IH. simpl flat_map. rewrite app_nil_r.
  replace (S m * n)%nat with (m * n + n)%nat by lia.
  now rewrite firstn_plus.
Qed.

Lemma flat_map_eq_in {A B} (f g : A -> list B) (l : list A) :
  (forall a, In a l -> f a = g a) -> flat_map f l = flat_map g l.
Proof.
  induction l as [|a l IH]; intros Heq; [reflexivity|].
  simpl. rewrite (Heq a) by (now left).
  rewrite IH; [reflexivity|]. intros a' Ha'. apply Heq. now right.
Qed.

Section SequencerFacts.

Open Scope Z_scope.

Variable data : list R.
Variables batch_size sequence_size : Z.

Let nb : Z := Sequencer.nb_batches data batch_size sequence_size.

Hypothesis batch_size_pos : 0 < batch_size.
Hypothesis sequence_size_pos : 0 < sequence_size.
Hypothesis enough_data : batch_size * sequence_size + 1 <= Py.len data.

Lemma nb_batches_pos : 0 < nb.
Proof.
  unfold nb, Sequencer.nb_batches.
  apply Z.div_str_pos. nia.
Qed.

Lemma nb_batches_fit : nb * (batch_size * sequence_size) + 1 <= Py.len data.
Proof.
  unfold nb, Sequencer.nb_batches.
  pose proof (Z.mul_div_le (Py.len data - 1) (batch_size * sequence_size)
                ltac:(nia)).
  lia.
Qed.

(** Every window, shifted or not, lies inside the series. *)
Lemma window_in_bounds off r b :
  0 <= off <= 1 -> 0 <= r < batch_size -> 0 <= b < nb ->
  0 <= Sequencer.start nb sequence_size r b + off
  /\ Sequencer.start nb sequence_size r b + off + sequence_size <= Py.len data.
Proof.
  intros Hoff Hr Hb. unfold Sequencer.start.
  pose proof nb_batches_fit as Hfit.
  assert (0 <= r * nb + b) by nia.
  assert (Hrow : r * nb + b + 1 <= batch_size * nb) by nia.
  assert ((r * nb + b + 1) * sequence_size <= batch_size * nb * sequence_size)
    by (apply Z.mul_le_mono_nonneg_r; lia).
  split; nia.
Qed.

Lemma window_eq off r b :
  0 <= off <= 1 -> 0 <= r < batch_size -> 0 <= b < nb ->
  Sequencer.window data nb sequence_size off r b
  = firstn (Z.to_nat sequence_size)
           (skipn (Z.to_nat (Sequencer.start nb sequence_size r b + off)) data).
Proof.
  intros Hoff Hr Hb. destruct (window_in_bounds off r b Hoff Hr Hb) as [Hlo Hhi].
  unfold Sequencer.window. rewrite slice_in_range by lia. f_equal. lia.
Qed.

Lemma window_len off r b :
  0 <= off <= 1 -> 0 <= r < batch_size -> 0 <= b < nb ->
  length (Sequencer.window data nb sequence_size off r b) = Z.to_nat sequence_size.
Proof.
  intros Hoff Hr Hb. destruct (window_in_bounds off r b Hoff Hr Hb) as [Hlo Hhi].
  rewrite window_eq by assumption. apply window_length.
  unfold Py.len in Hhi. lia.
Qed.

(** Row [r] of a batch is the window of row [r]. *)
Lemma batch_row off r b :
  0 <= off <= 1 -> 0 <= r < batch_size -> 0 <= b < nb ->
  Nd.row (Sequencer.batch data nb batch_size sequence_size off b) r
  = Sequencer.window data nb sequence_size off r b.
Proof.
  intros Hoff Hr Hb. unfold Nd.row, Sequencer.batch. simpl.
  rewrite Z2Nat.inj_mul by lia.
  apply (flat_map_uniform_chunk
           (fun r0 => Sequencer.window data nb sequence_size off r0 b)).
  - intros r0 Hr0. apply In_nth_error in Hr0 as [i Hi].
    apply range_nth_inv in Hi as [-> Hi]. apply window_len; lia.
  - rewrite range_nth by lia. f_equal. lia.
Qed.

(** Row [r] of a batch, read off its flat data, is the piece of the series
    that starts at [(r * nb + b) * sequence_size] (one later for the labels). *)
Lemma batch_row_piece off r b :
  0 <= off <= 1 -> 0 <= r < batch_size -> 0 <= b < nb ->
  firstn (Z.to_nat sequence_size)
         (skipn (Z.to_nat (r * sequence_size))
                (a2_flat (Sequencer.batch data nb batch_size sequence_size off b)))
  = firstn (Z.to_nat sequence_size)
           (skipn (Z.to_nat ((r * nb + b) * sequence_size + off)) data).
Proof.
  intros Hoff Hr Hb.
  pose proof (batch_row off r b Hoff Hr Hb) as Hrow.
  rewrite window_eq in Hrow by assumption.
  exact Hrow.
Qed.

(** The batch yielded at position [e * nb + b]. *)
Lemma sequencer_nth (nb_epochs : Z) (e b : nat) :
  (e < Z.to_nat nb_epochs)%nat -> (b < Z.to_nat nb)%nat ->
  nth_error
    (flat_map
       (fun epoch =>
          map (fun b0 => (Sequencer.batch data nb batch_size sequence_size 0 b0,
                          Sequencer.batch data nb batch_size sequence_size 1 b0,
                          epoch))
              (Py.range nb))
       (Py.range nb_epochs))
    (e * Z.to_nat nb + b)
  = Some (Sequencer.batch data nb batch_size sequence_size 0 (Z.of_nat b),
          Sequencer.batch data nb batch_size sequence_size 1 (Z.of_nat b),
          Z.of_nat e).
Proof.
  intros He Hb.
  rewrite (flat_map_uniform_nth _ (Z.to_nat nb)); [| |exact Hb].
  - rewrite (range_nth _ _ He), nth_error_map, (range_nth _ _ Hb). reflexivity.
  - intros e0 _. now rewrite length_map, range_length.
Qed.

(** C6. The sequencer slices the flat series into windows.  With
    [nb_batches = (len(data) - 1) // (batch_size * sequence_size)], row [r] of
    the [i]-th samples batch is the piece of [sequence_size] consecutive
    elements of the series that starts at
    [(r * nb_batches + i mod nb_batches) * sequence_size]; the same row of
    the labels batch is the piece that starts one element later, so the two
    overlap in all but one element.  The epoch number yielded with the
    [i]-th batch is [i / nb_batches], the number of complete passes made
    before it, and each pass slices the series: the rows of the [nb_batches]
    batches of one epoch, read row after row, are the first
    [batch_size * nb_batches * sequence_size] elements of the series (of the
    series without its first element, for the labels). *)
Theorem rnn_minibatch_sequencer_windows (nb_epochs : Z) :
  let nbatch := (Z.of_nat (length data) - 1) / (batch_size * sequence_size) in
  let row (a : array2) (r : Z) :=
    firstn (Z.to_nat sequence_size)
           (skipn (Z.to_nat (r * sequence_size)) (a2_flat a)) in
  let piece (s : Z) := firstn (Z.to_nat sequence_size) (skipn (Z.to_nat s) data) in
  exists batches,
    rnn_minibatch_sequencer data batch_size sequence_size nb_epochs = Ok batches
    /\ Z.of_nat (length batches) = Z.max 0 nb_epochs * nbatch
    /\ (forall i x y epoch,
          nth_error batches i = Some (x, y, epoch) ->
          epoch = Z.of_nat i / nbatch
          /\ 0 <= epoch < nb_epochs
          /\ a2_shape x = (batch_size, sequence_size)
          /\ a2_shape y = (batch_size, sequence_size)
          /\ forall r, 0 <= r < batch_size ->
               let s := (r * nbatch + Z.of_nat i mod nbatch) * sequence_size in
               0 <= s /\ s + sequence_size + 1 <= Z.of_nat (length data)
               /\ row x r = piece s
               /\ row y r = piece (s + 1)
               /\ length (row x r) = Z.to_nat sequence_size
               /\ length (row y r) = Z.to_nat sequence_size
               /\ forall j, (S j < Z.to_nat sequence_size)%nat ->
                    nth_error (row y r) j = nth_error (row x r) (S j))
    /\ (forall e, 0 <= e < nb_epochs ->
          let pass (sel : array2 * array2 * Z -> array2) :=
            flat_map
              (fun r =>
                 flat_map
                   (fun b =>
                      match nth_error batches (Z.to_nat (e * nbatch + Z.of_nat b)) with
                      | Some t => row (sel t) (Z.of_nat r)
                      | None => []
                      end)
                   (seq 0 (Z.to_nat nbatch)))
              (seq 0 (Z.to_nat batch_size)) in
          pass (fun t => fst (fst t))
          = firstn (Z.to_nat (batch_size * nbatch * sequence_size)) data
          /\ pass (fun t => snd (fst t))
             = firstn (Z.to_nat (batch_size * nbatch * sequence_size)) (skipn 1 data)).
Proof.
  intros nbatch row piece.
  change nbatch with nb in *. clear nbatch.
  pose proof nb_batches_pos as Hnb.
  unfold rnn_minibatch_sequencer. fold nb.
  destruct (Z.leb_spec batch_size 0); [lia|].
  destruct (Z.leb_spec sequence_size 0); [lia|].
  destruct (Z.ltb_spec (Py.len data - 1) (batch_size * sequence_size)); [lia|].
  simpl orb. cbv iota.
  set (mk := fun (epoch b : Z) =>
               (Sequencer.batch data nb batch_size sequence_size 0 b,
                Sequencer.batch data nb batch_size sequence_size 1 b, epoch)).
  set (pass := fun epoch : Z => map (mk epoch) (Py.range nb)).
  assert (Hpass : forall e, In e (Py.range nb_epochs) ->
                            length (pass e) = Z.to_nat nb).
  { intros e _. unfold pass. now rewrite length_map, range_length. }
  exists (flat_map pass (Py.range nb_epochs)).
  split; [reflexivity|]. split; [|split].
  - rewrite (flat_map_uniform_length pass (Z.to_nat nb) _ Hpass).
    rewrite range_length. lia.
  - intros i x y epoch Hi.
    assert (Hn : (Z.to_nat nb <> 0)%nat) by lia.
    rewrite (Nat.div_mod_eq i (Z.to_nat nb)), Nat.mul_comm in Hi.
    rewrite (flat_map_uniform_nth pass (Z.to_nat nb) _ Hpass) in Hi
      by (apply Nat.mod_upper_bound; exact Hn).
    destruct (nth_error (Py.range nb_epochs) (i / Z.to_nat nb)) as [e|] eqn:He;
      [|discriminate].
    apply range_nth_inv in He as [-> He].
    unfold pass in Hi. rewrite nth_error_map in Hi.
    destruct (nth_error (Py.range nb) (i mod Z.to_nat nb)) as [b|] eqn:Hb;
      [|discriminate].
    apply range_nth_inv in Hb as [-> Hb].
    simpl in Hi. unfold mk in Hi. inversion Hi; subst x y epoch. clear Hi.
    assert (Hmod : Z.of_nat i mod nb = Z.of_nat (i mod Z.to_nat nb))
      by (rewrite Nat2Z.inj_mod, Z2Nat.id by lia; reflexivity).
    set (b := Z.of_nat (i mod Z.to_nat nb)) in *.
    assert (Hbr : 0 <= b < nb) by (unfold b; lia).
    split; [rewrite Nat2Z.inj_div, Z2Nat.id by lia; reflexivity|].
    split; [lia|]. split; [reflexivity|]. split; [reflexivity|].
    intros r Hr. unfold row, piece. rewrite Hmod.
    destruct (window_in_bounds 1 r b ltac:(lia) Hr Hbr) as [Hlo Hhi].
    destruct (window_in_bounds 0 r b ltac:(lia) Hr Hbr) as [Hlo0 _].
    unfold Sequencer.start, Py.len in Hlo, Hhi, Hlo0.
    rewrite !batch_row_piece by lia. rewrite Z.add_0_r.
    split; [lia|]. split; [lia|]. split; [reflexivity|]. split; [reflexivity|].
    split; [apply window_length; lia|]. split; [apply window_length; lia|].
    intros j Hj.
    rewrite !nth_error_firstn, !nth_error_skipn.
    destruct (Nat.ltb_spec j (Z.to_nat sequence_size)); [|lia].
    destruct (Nat.ltb_spec (S j) (Z.to_nat sequence_size)); [|lia].
    f_equal. lia.
  - intros e He.
    assert (Hcover : forall off (sel : array2 * array2 * Z -> array2),
               0 <= off <= 1 ->
               (forall b0 ep, sel (mk ep b0)
                              = Sequencer.batch data nb batch_size sequence_size off b0) ->
               flat_map
                 (fun r =>
                    flat_map
                      (fun b =>
                         match nth_error (flat_map pass (Py.range nb_epochs))
                                         (Z.to_nat (e * nb + Z.of_nat b)) with
                         | Some t => row (sel t) (Z.of_nat r)
                         | None => []
                         end)
                      (seq 0 (Z.to_nat nb)))
                 (seq 0 (Z.to_nat batch_size))
               = firstn (Z.to_nat (batch_size * nb * sequence_size))
                        (skipn (Z.to_nat off) data)).
    { intros off sel Hoff Hsel.
      rewrite (flat_map_eq_in _
                 (fun r => firstn (Z.to_nat nb * Z.to_nat sequence_size)
                                  (skipn (r * (Z.to_nat nb * Z.to_nat sequence_size))
                                         (skipn (Z.to_nat off) data)))).
      - rewrite chunks_concat. f_equal. nia.
      - intros r Hr. apply in_seq in Hr.
        rewrite <- chunks_concat. apply flat_map_eq_in.
        intros b Hb. apply in_seq in Hb.
        replace (Z.to_nat (e * nb + Z.of_nat b))
          with (Z.to_nat e * Z.to_nat nb + b)%nat by nia.
        unfold pass. fold (mk e).
        change (fun epoch : Z => map (mk epoch) (Py.range nb))
          with (fun epoch : Z =>
                  map (fun b0 => (Sequencer.batch data nb batch_size sequence_size 0 b0,
                                  Sequencer.batch data nb batch_size sequence_size 1 b0,
                                  epoch))
                      (Py.range nb)).
        rewrite sequencer_nth by lia.
        change (Sequencer.batch data nb batch_size sequence_size 0 (Z.of_nat b),
                Sequencer.batch data nb batch_size sequence_size 1 (Z.of_nat b),
                Z.of_nat (Z.to_nat e))
          with (mk (Z.of_nat (Z.to_nat e)) (Z.of_nat b)).
        rewrite Hsel. unfold row.
        rewrite batch_row_piece by lia.
        rewrite !skipn_skipn. do 2 f_equal. nia. }
    split.
    + exact (Hcover 0 (fun t => fst (fst t)) ltac:(lia) ltac:(reflexivity)).
    + exact (Hcover 1 (fun t => snd (fst t)) ltac:(lia) ltac:(reflexivity)).
Qed.

End SequencerFacts.

(** Instance: nine samples in batches of two rows of two samples, three
    epochs. *)
Lemma rnn_minibatch_sequencer_windows_witness :
  let data := Example.short_series in
  let nbatch := ((Z.of_nat (length data) - 1) / (2 * 2))%Z in
  let row (a : array2) (r : Z) :=
    firstn (Z.to_nat 2) (skipn (Z.to_nat (r * 2)) (a2_flat a)) in
  let piece (s : Z) := firstn (Z.to_nat 2) (skipn (Z.to_nat s) data) in
  exists batches,
    rnn_minibatch_sequencer data 2 2 3 = Ok batches
    /\ Z.of_nat (length batches) = (Z.max 0 3 * nbatch)%Z
    /\ (forall i x y epoch,
          nth_error batches i = Some (x, y, epoch) ->
          epoch = (Z.of_nat i / nbatch)%Z
          /\ (0 <= epoch < 3)%Z
          /\ a2_shape x = (2, 2)%Z
          /\ a2_shape y = (2, 2)%Z
          /\ forall r, (0 <= r < 2)%Z ->
               let s := ((r * nbatch + Z.of_nat i mod nbatch) * 2)%Z in
               (0 <= s)%Z /\ (s + 2 + 1 <= Z.of_nat (length data))%Z
               /\ row x r = piece s
               /\ row y r = piece (s + 1)%Z
               /\ length (row x r) = Z.to_nat 2
               /\ length (row y r) = Z.to_nat 2
               /\ forall j, (S j < Z.to_nat 2)%nat ->
                    nth_error (row y r) j = nth_error (row x r) (S j))
    /\ (forall e, (0 <= e < 3)%Z ->
          let pass (sel : array2 * array2 * Z -> array2) :=
            flat_map
              (fun r =>
                 flat_map
                   (fun b =>
                      match nth_error batches (Z.to_nat (e * nbatch + Z.of_nat b)) with
                      | Some t => row (sel t) (Z.of_nat r)
                      | None => []
                      end)
                   (seq 0 (Z.to_nat nbatch)))
              (seq 0 (Z.to_nat 2)) in
          pass (fun t => fst (fst t))
          = firstn (Z.to_nat (2 * nbatch * 2)) data
          /\ pass (fun t => snd (fst t))
             = firstn (Z.to_nat (2 * nbatch * 2)) (skipn 1 data)).
Proof.
  apply (rnn_minibatch_sequencer_windows Example.short_series 2%Z 2%Z);
    [lia | lia | unfold Py.len; simpl; lia].
Defined.

(** ** Failure modes *)

(** A failure that is no bounds violation (C7 does not hold of the notebook
    as a whole): with a valid [WAVEFORM_SELECT] [create_time_series] returns,
    and yet the forecast cell run on the series it returned raises.  Here
    [RUNLEN = 2] values are predicted (after one priming execution, three
    executions in all) and [RMSELEN = 3] are asked for by the error metric,
    whose subtraction then raises [ValueError]. *)
Lemma failure_with_valid_waveform_select :
  In 0%Z [0; 1; 2]%Z
  /\ exists data g',
       create_time_series Example.random 0 5 O = (Ok data, g')
       /\ exists w',
            forecast_cell Hyper.RNN_CELLSIZE Hyper.NLAYERS Hyper.Yout Hyper.H
                          Example.sess_run 1 2 0 3 data Example.w0
            = (Raise ValueError, w')
            /\ length (trace w') = 3%nat
            /\ ValueError <> IndexError.
Proof.
  split; [simpl; auto|].
  eexists _, _. split; [reflexivity|].
  eexists. split; [reflexivity|]. split; [reflexivity | discriminate].
Qed.

(** C7, amended.  With [WAVEFORM_SELECT] in {0, 1, 2} the indexing
    [frequencies[WAVEFORM_SELECT]] is within bounds and [create_time_series]
    returns normally for every [datalen]; the only failure mode of
    [create_time_series] is the [IndexError] of that indexing: whenever it
    raises, [WAVEFORM_SELECT] is outside {0, 1, 2}, the exception is
    [IndexError] and no random number has been drawn. *)
Theorem create_time_series_only_failure
        (rng : Type) (random : rng -> R * rng) (ws datalen : Z) (g : rng) :
  (In ws [0; 1; 2]%Z ->
   exists f x g',
     nth_error [(0.2, 0.15); (0.35, 0.3); (0.6, 0.55)]%R (Z.to_nat ws) = Some f
     /\ create_time_series random ws datalen g = (Ok x, g'))
  /\ (forall e g',
        create_time_series random ws datalen g = (Raise e, g') ->
        e = IndexError /\ ~ In ws [0; 1; 2]%Z /\ g' = g).
Proof.
  split.
  - intros Hws.
    destruct (frequencies_selected ws Hws) as [f [_ Hnth]].
    destruct (create_time_series_returns rng random ws datalen g Hws)
      as [f' [x [g' [_ Hrun]]]].
    exists f, x, g'. split; [exact Hnth | exact Hrun].
  - intros e g' Hrun.
    destruct (create_time_series_raises rng random ws datalen g e g' Hrun)
      as [He [_ [Hws Hg]]].
    repeat split; assumption.
Qed.

Lemma create_time_series_only_failure_witness :
  (exists f x g',
      nth_error [(0.2, 0.15); (0.35, 0.3); (0.6, 0.55)]%R (Z.to_nat 0) = Some f
      /\ create_time_series Example.random 0 3 O = (Ok x, g'))
  /\ (IndexError = IndexError /\ ~ In 3%Z [0; 1; 2]%Z /\ O = O).
Proof.
  split.
  - apply (proj1 (create_time_series_only_failure nat Example.random 0%Z 3%Z O)).
    simpl. auto.
  - apply (proj2 (create_time_series_only_failure nat Example.random 3%Z 5%Z O)
             IndexError O).
    reflexivity.
Defined.

(** * Further properties of the notebook's code *)

(** ** More on [create_time_series] *)

Lemma getitem_out_of_range {A} (l : list A) (i : Z) :
  (i < - Py.len l)%Z \/ (Py.len l <= i)%Z -> Py.getitem l i = Raise IndexError.
Proof.
  intros Hi. unfold Py.getitem.
  pose proof (Zle_0_nat (length l)) as Hlen. fold (Py.len l) in Hlen.
  destruct (Z.ltb_spec i 0).
  - destruct (Z.leb_spec 0 (i + Py.len l)); [|reflexivity].
    destruct (Z.ltb_spec (i + Py.len l) (Py.len l)); [lia | reflexivity].
  - destruct (Z.leb_spec 0 i); [|reflexivity].
    destruct (Z.ltb_spec i (Py.len l)); [lia | reflexivity].
Qed.

Section TimeSeriesMore.

Open Scope R_scope.

Variable rng : Type.
Variable random : rng -> R * rng.

Lemma noise_list_state idx g :
  snd (noise_list random idx g) = rng_after random (length idx) g.
Proof.
  revert g. induction idx as [|i idx IH]; intros g; simpl; [reflexivity|].
  specialize (IH (snd (random g))).
  destruct (random g) as [u g1]. simpl in *.
  destruct (noise_list random idx g1) as [ns g2]. simpl in *. exact IH.
Qed.

(** Element [n] of a series that was produced. *)
Lemma create_time_series_nth ws datalen g x g' n :
  create_time_series random ws datalen g = (Ok x, g') ->
  (n < Z.to_nat datalen)%nat ->
  exists freq1 freq2,
    Py.getitem frequencies ws = Ok (freq1, freq2)
    /\ nth_error (elems x) n
       = Some ((sin (IZR (Z.of_nat n) * freq1) + draw random n g * 0.2)
               + (sin (IZR (Z.of_nat n) * freq2) + draw random n g * 0.2)).
Proof.
  intros Hrun Hn.
  destruct (Py.getitem frequencies ws) as [[freq1 freq2]|e0] eqn:Hget.
  2:{ unfold create_time_series, bind, lift in Hrun. rewrite Hget in Hrun. discriminate. }
  rewrite (create_time_series_unfold rng random ws datalen g _ _ Hget) in Hrun.
  inversion Hrun; subst x g'; clear Hrun.
  exists freq1, freq2. split; [reflexivity|]. cbn [elems].
  assert (Hd : nth_error (fst (noise_list random (Py.range datalen) g)) n
               = Some (draw random n g * 0.2))
    by (apply noise_list_nth; rewrite range_length; exact Hn).
  apply zip_with_nth; apply zip_with_nth;
    try exact Hd; apply sinusoid_nth; exact Hn.
Qed.

(** X1. A call that returns has drawn exactly [datalen] random numbers (none
    for a negative [datalen]): the generator is left in the state reached after
    that many draws. *)
Theorem create_time_series_draws ws datalen g x g' :
  create_time_series random ws datalen g = (Ok x, g') ->
  g' = rng_after random (Z.to_nat datalen) g.
Proof.
  intros Hrun.
  destruct (Py.getitem frequencies ws) as [[freq1 freq2]|e0] eqn:Hget.
  - rewrite (create_time_series_unfold rng random ws datalen g _ _ Hget) in Hrun.
    inversion Hrun. now rewrite noise_list_state, range_length.
  - unfold create_time_series, bind, lift in Hrun. rewrite Hget in Hrun. discriminate.
Qed.

(** X2. When the generator draws from [0, 1), every sample of the series lies
    in [-2, 2.4): two sines and twice a noise term below 0.2. *)
Theorem create_time_series_bounded ws datalen g x g' :
  (forall s, 0 <= fst (random s) < 1) ->
  create_time_series random ws datalen g = (Ok x, g') ->
  Forall (fun v => -2 <= v < 2.4) (elems x).
Proof.
  intros Hunit Hrun. apply Forall_forall. intros v Hv.
  apply In_nth_error in Hv as [n Hn].
  assert (Hlt : (n < Z.to_nat datalen)%nat).
  { assert (Hnone : nth_error (elems x) n <> None) by congruence.
    apply nth_error_Some in Hnone.
    destruct (Z.le_gt_cases 0 datalen) as [Hd|Hd].
    - pose proof (create_time_series_length rng random ws datalen g x g' Hrun Hd) as Hl.
      unfold Py.len in Hl. lia.
    - exfalso.
      destruct (Py.getitem frequencies ws) as [[freq1 freq2]|e0] eqn:Hget.
      + rewrite (create_time_series_unfold rng random ws datalen g _ _ Hget) in Hrun.
        inversion Hrun; subst x. cbn [elems] in Hnone.
        rewrite waveform_length in Hnone. lia.
      + unfold create_time_series, bind, lift in Hrun. rewrite Hget in Hrun.
        discriminate. }
  destruct (create_time_series_nth ws datalen g x g' n Hrun Hlt)
    as [freq1 [freq2 [_ Hx]]].
  rewrite Hx in Hn. inversion Hn; subst v.
  pose proof (SIN_bound (IZR (Z.of_nat n) * freq1)).
  pose proof (SIN_bound (IZR (Z.of_nat n) * freq2)).
  pose proof (Hunit (rng_after random n g)) as Hu.
  fold (draw random n g) in Hu. lra.
Qed.

(** X3. For [datalen <= 0] the result is the empty [float32] array and the
    generator is not touched. *)
Theorem create_time_series_empty ws datalen g x g' :
  (datalen <= 0)%Z ->
  create_time_series random ws datalen g = (Ok x, g') ->
  x = mk_ndarray1 float32 [] /\ g' = g.
Proof.
  intros Hd Hrun.
  destruct (Py.getitem frequencies ws) as [[freq1 freq2]|e0] eqn:Hget.
  - rewrite (create_time_series_unfold rng random ws datalen g _ _ Hget) in Hrun.
    unfold Np.arange in Hrun. rewrite (range_empty _ Hd) in Hrun.
    simpl in Hrun. inversion Hrun. split; reflexivity.
  - unfold create_time_series, bind, lift in Hrun. rewrite Hget in Hrun. discriminate.
Qed.

(** X4. [create_time_series] raises exactly when [WAVEFORM_SELECT] is below
    -3 or above 2, whatever [datalen] is: Python's indexing from the end makes
    -1, -2 and -3 valid selectors too. *)
Theorem create_time_series_raises_iff ws datalen g :
  (exists e g', create_time_series random ws datalen g = (Raise e, g'))
  <-> (ws < -3 \/ 3 <= ws)%Z.
Proof.
  split.
  - intros [e [g' Hrun]].
    destruct (create_time_series_raises rng random ws datalen g e g' Hrun)
      as [_ [Hget _]].
    destruct (getitem_raises _ _ _ Hget) as [_ Hout].
    unfold Py.len in Hout. simpl in Hout. lia.
  - intros Hws. exists IndexError, g.
    unfold create_time_series, bind, lift.
    rewrite getitem_out_of_range; [reflexivity|].
    unfold Py.len. simpl. lia.
Qed.

(** X5. A selector counted from the end chooses the same waveform as its
    non-negative twin: for -3 <= [WAVEFORM_SELECT] < 0 the call behaves as
    with [WAVEFORM_SELECT + 3]. *)
Theorem create_time_series_from_end ws datalen g :
  (-3 <= ws < 0)%Z ->
  create_time_series random ws datalen g
  = create_time_series random (ws + 3) datalen g.
Proof.
  intros Hws.
  assert (Hcases : ws = (-3)%Z \/ ws = (-2)%Z \/ ws = (-1)%Z) by lia.
  unfold create_time_series, bind, lift.
  destruct Hcases as [-> | [-> | ->]]; reflexivity.
Qed.

(** X6. A longer series extends a shorter one: from the same generator state
    the first [d1] samples of a series of length [d2 >= d1] are the series of
    length [d1]. *)
Theorem create_time_series_prefix ws d1 d2 g x1 g1 x2 g2 :
  (0 <= d1 <= d2)%Z ->
  create_time_series random ws d1 g = (Ok x1, g1) ->
  create_time_series random ws d2 g = (Ok x2, g2) ->
  elems x1 = firstn (Z.to_nat d1) (elems x2).
Proof.
  intros Hd H1 H2.
  pose proof (create_time_series_length rng random ws d1 g x1 g1 H1 ltac:(lia)) as L1.
  pose proof (create_time_series_length rng random ws d2 g x2 g2 H2 ltac:(lia)) as L2.
  unfold Py.len in L1, L2.
  apply nth_error_ext. intros n.
  rewrite nth_error_firstn.
  destruct (Nat.ltb_spec n (Z.to_nat d1)) as [Hn|Hn].
  - destruct (create_time_series_nth ws d1 g x1 g1 n H1 Hn) as [f1 [f2 [Hg1 ->]]].
    destruct (create_time_series_nth ws d2 g x2 g2 n H2 ltac:(lia))
      as [f1' [f2' [Hg2 ->]]].
    rewrite Hg1 in Hg2. inversion Hg2. reflexivity.
  - apply nth_error_None. lia.
Qed.

End TimeSeriesMore.

Lemma create_time_series_draws_witness :
  exists x g',
    create_time_series Example.random 0 3 O = (Ok x, g')
    /\ g' = rng_after Example.random (Z.to_nat 3) O.
Proof.
  pose proof (create_time_series_unfold nat Example.random 0%Z 3%Z O _ _ eq_refl) as Hrun.
  cbv zeta in Hrun.
  eexists _, _. split; [exact Hrun|].
  exact (create_time_series_draws nat Example.random 0%Z 3%Z O _ _ Hrun).
Defined.

Lemma create_time_series_bounded_witness :
  exists x g',
    create_time_series Example.random 0 3 O = (Ok x, g')
    /\ Forall (fun v => -2 <= v < 2.4)%R (elems x).
Proof.
  pose proof (create_time_series_unfold nat Example.random 0%Z 3%Z O _ _ eq_refl) as Hrun.
  cbv zeta in Hrun.
  eexists _, _. split; [exact Hrun|].
  refine (create_time_series_bounded nat Example.random 0%Z 3%Z O _ _ _ Hrun).
  intros s. simpl. lra.
Defined.

Lemma create_time_series_empty_witness :
  exists x g',
    create_time_series Example.random 1 0 O = (Ok x, g')
    /\ x = mk_ndarray1 float32 [] /\ g' = O.
Proof.
  pose proof (create_time_series_unfold nat Example.random 1%Z 0%Z O _ _ eq_refl) as Hrun.
  cbv zeta in Hrun.
  eexists _, _. split; [exact Hrun|].
  refine (create_time_series_empty nat Example.random 1%Z 0%Z O _ _ _ Hrun). lia.
Defined.

Lemma create_time_series_raises_iff_witness :
  exists e g', create_time_series Example.random 3 5 O = (Raise e, g').
Proof.
  apply (proj2 (create_time_series_raises_iff nat Example.random 3%Z 5%Z O)). lia.
Defined.

Lemma create_time_series_from_end_witness :
  create_time_series Example.random (-1) 3 O
  = create_time_series Example.random (-1 + 3) 3 O.
Proof.
  apply (create_time_series_from_end nat Example.random (-1)%Z 3%Z O). lia.
Defined.

Lemma create_time_series_prefix_witness :
  exists x1 g1 x2 g2,
    create_time_series Example.random 0 2 O = (Ok x1, g1)
    /\ create_time_series Example.random 0 3 O = (Ok x2, g2)
    /\ elems x1 = firstn (Z.to_nat 2) (elems x2).
Proof.
  pose proof (create_time_series_unfold nat Example.random 0%Z 2%Z O _ _ eq_refl) as H1.
  pose proof (create_time_series_unfold nat Example.random 0%Z 3%Z O _ _ eq_refl) as H2.
  cbv zeta in H1, H2.
  eexists _, _, _, _. split; [exact H1|]. split; [exact H2|].
  refine (create_time_series_prefix nat Example.random 0%Z 2%Z 3%Z O _ _ _ _ _ H1 H2). lia.
Defined.

(** ** More on [prediction_run] *)

(** X7. Inference never trains: every execution [prediction_run] makes,
    priming or feedback, completed run or not, fetches exactly [Yout] and [H]
    (no operation such as [train_op], no loss) and feeds no labels. *)
Theorem prediction_run_never_trains
        (RNN_CELLSIZE NLAYERS : Z) (Yout H : node)
        (session : Type) (sess_run : session -> list fetch -> feed -> fetched * session)
        (prime_data : ndarray1) (run_length : Z) (w : world session) :
  exists calls,
    trace (snd (prediction_run RNN_CELLSIZE NLAYERS Yout H sess_run
                               prime_data run_length w))
    = trace w ++ calls
    /\ Forall (fun c => call_fetches c = [FetchNode Yout; FetchNode H]
                        /\ (forall o, ~ In (FetchOp o) (call_fetches c))
                        /\ feed_labels (call_feed c) = None) calls.
Proof.
  apply prediction_run_all.
  intros H_ Yin v. cbn [call_fetches call_feed feed_labels].
  split; [reflexivity|]. split; [|reflexivity].
  intros o [Ho|[Ho|[]]]; discriminate.
Qed.

Section PredictionEdge.

Variables RNN_CELLSIZE NLAYERS : Z.
Variables Yout H : node.
Variable session : Type.
Variable sess_run : session -> list fetch -> feed -> fetched * session.

(** X8. With non-empty [prime_data] (and a state size that [np.zeros]
    accepts) the state is primed by exactly one execution: it is fed the whole
    of [prime_data] as a single sequence of shape [1, data_len, 1] together
    with the zero state, and the [run_length] feedback executions follow it,
    [run_length + 1] in all. *)
Theorem prediction_run_primes_once prime_data run_length (w : world session) :
  well_shaped sess_run -> (0 <= RNN_CELLSIZE * NLAYERS)%Z ->
  (0 <= run_length)%Z -> elems prime_data <> [] ->
  exists results w' c0 calls,
    prediction_run RNN_CELLSIZE NLAYERS Yout H sess_run prime_data run_length w
    = (Ok results, w')
    /\ trace w' = trace w ++ c0 :: calls
    /\ call_fetches c0 = [FetchNode Yout; FetchNode H]
    /\ call_feed c0
       = mk_feed (mk_array2 (1, RNN_CELLSIZE * NLAYERS)%Z
                            (repeat 0%R (Z.to_nat (RNN_CELLSIZE * NLAYERS))))
                 (mk_array3 (1, Py.len (elems prime_data), 1)%Z (elems prime_data))
                 None 1.0
    /\ call_out c0 = fst (sess_run (sess w) (call_fetches c0) (call_feed c0))
    /\ Py.len calls = run_length
    /\ Py.len (c0 :: calls) = (run_length + 1)%Z.
Proof.
  intros Hshape Hdim Hn Hne.
  destruct (prediction_run_spec RNN_CELLSIZE NLAYERS Yout H session sess_run Hshape
              prime_data run_length w Hdim)
    as [priming [calls [ys [Y0 [H0 [s0 [s' [Hrun [_ [Hc [_ Hprime]]]]]]]]]]].
  destruct Hprime as [[Hnil _]|[_ [Hp _]]]; [contradiction|].
  subst priming.
  eexists _, _, _, calls. split; [exact Hrun|].
  split; [reflexivity|]. split; [reflexivity|]. split; [reflexivity|].
  split; [reflexivity|]. unfold Py.len. simpl length. lia.
Qed.

(** X9. For [run_length <= 0] (and a state size that [np.zeros] accepts) the
    loop body never runs: the result is the empty array (of NumPy's default
    dtype [float64]), nothing is executed when [prime_data] is empty, and only
    the priming execution otherwise; this needs nothing of the network. *)
Theorem prediction_run_no_iterations prime_data run_length (w : world session) :
  (0 <= RNN_CELLSIZE * NLAYERS)%Z -> (run_length <= 0)%Z ->
  exists w',
    prediction_run RNN_CELLSIZE NLAYERS Yout H sess_run prime_data run_length w
    = (Ok (mk_ndarray1 float64 []), w')
    /\ (elems prime_data = [] -> w' = w)
    /\ (elems prime_data <> [] -> exists c0, trace w' = trace w ++ [c0]).
Proof.
  intros Hdim Hn. unfold prediction_run. rewrite (range_empty _ Hn).
  unfold bind at 1, lift at 1. rewrite (zeros2_state RNN_CELLSIZE NLAYERS Hdim).
  unfold bind at 1, lift at 1. rewrite zeros2_output.
  destruct (Z.ltb_spec 0 (Py.len (elems prime_data))) as [Hpos|Hzero].
  - unfold bind at 1. unfold bind at 1, lift at 1.
    rewrite (reshape3_ok _ _ eq_refl).
    unfold bind at 1. rewrite run_eq. unfold ret at 1.
    unfold bind at 1. simpl feedback_loop. unfold ret.
    eexists. split; [reflexivity|]. split.
    + intros Hnil. rewrite Hnil in Hpos. cbv in Hpos. discriminate.
    + intros _. eexists. reflexivity.
  - unfold bind at 1. unfold ret at 1.
    unfold bind at 1. simpl feedback_loop. unfold ret.
    exists w. split; [reflexivity|]. split; [reflexivity|].
    intros Hne. exfalso. apply Hne.
    destruct (elems prime_data); [reflexivity|].
    unfold Py.len in Hzero. simpl in Hzero. lia.
Qed.

(** X22. With a negative state size [RNN_CELLSIZE * NLAYERS] the run fails at
    its first statement, [np.zeros([1, RNN_CELLSIZE*NLAYERS])], with
    [ValueError]: nothing is executed in the session, whatever [prime_data]
    and [run_length] are. *)
Theorem prediction_run_negative_state prime_data run_length (w : world session) :
  (RNN_CELLSIZE * NLAYERS < 0)%Z ->
  prediction_run RNN_CELLSIZE NLAYERS Yout H sess_run prime_data run_length w
  = (Raise ValueError, w).
Proof.
  intros Hdim. unfold prediction_run.
  unfold bind at 1, lift at 1.
  now rewrite (zeros2_negative RNN_CELLSIZE NLAYERS Hdim).
Qed.

End PredictionEdge.

Lemma prediction_run_primes_once_witness :
  exists results w' c0 calls,
    prediction_run Hyper.RNN_CELLSIZE Hyper.NLAYERS Hyper.Yout Hyper.H Example.sess_run
                   Example.prime_data 3 Example.w0
    = (Ok results, w')
    /\ trace w' = trace Example.w0 ++ c0 :: calls
    /\ call_fetches c0 = [FetchNode Hyper.Yout; FetchNode Hyper.H]
    /\ call_feed c0
       = mk_feed (mk_array2 (1, Hyper.RNN_CELLSIZE * Hyper.NLAYERS)%Z
                            (repeat 0%R (Z.to_nat (Hyper.RNN_CELLSIZE * Hyper.NLAYERS))))
                 (mk_array3 (1, Py.len (elems Example.prime_data), 1)%Z
                            (elems Example.prime_data))
                 None 1.0
    /\ call_out c0
       = fst (Example.sess_run (sess Example.w0) (call_fetches c0) (call_feed c0))
    /\ Py.len calls = 3%Z
    /\ Py.len (c0 :: calls) = (3 + 1)%Z.
Proof.
  apply (prediction_run_primes_once Hyper.RNN_CELLSIZE Hyper.NLAYERS Hyper.Yout Hyper.H
           nat Example.sess_run Example.prime_data 3%Z Example.w0).
  - exact example_well_shaped.
  - unfold Hyper.RNN_CELLSIZE, Hyper.NLAYERS. lia.
  - lia.
  - discriminate.
Defined.

Lemma prediction_run_no_iterations_witness :
  exists w',
    prediction_run Hyper.RNN_CELLSIZE Hyper.NLAYERS Hyper.Yout Hyper.H Example.sess_run
                   Example.prime_data (-1) Example.w0
    = (Ok (mk_ndarray1 float64 []), w')
    /\ (elems Example.prime_data = [] -> w' = Example.w0)
    /\ (elems Example.prime_data <> [] ->
        exists c0, trace w' = trace Example.w0 ++ [c0]).
Proof.
  apply (prediction_run_no_iterations Hyper.RNN_CELLSIZE Hyper.NLAYERS Hyper.Yout Hyper.H
           nat Example.sess_run Example.prime_data (-1)%Z Example.w0).
  - unfold Hyper.RNN_CELLSIZE, Hyper.NLAYERS. lia.
  - lia.
Defined.

Lemma prediction_run_negative_state_witness :
  prediction_run (-64) Hyper.NLAYERS Hyper.Yout Hyper.H Example.sess_run
                 Example.prime_data 3 Example.w0
  = (Raise ValueError, Example.w0).
Proof.
  apply (prediction_run_negative_state (-64)%Z Hyper.NLAYERS Hyper.Yout Hyper.H
           nat Example.sess_run Example.prime_data 3%Z Example.w0).
  unfold Hyper.NLAYERS. lia.
Defined.

(** ** More on [model_rnn_fn] *)

(** X11. The keep probability reaches the graph only through the dropout
    wrappers between layers: with a single layer (or none) the result of
    [model_rnn_fn] is the same for every [dropout_pkeep] tensor, whereas from
    two layers on different tensors give different graphs. *)
Theorem model_rnn_fn_dropout_needs_two_layers
        (RNN_CELLSIZE NLAYERS : Z) (features Hin labels p p' : node) :
  ((NLAYERS <= 1)%Z ->
   model_rnn_fn RNN_CELLSIZE NLAYERS features Hin labels p
   = model_rnn_fn RNN_CELLSIZE NLAYERS features Hin labels p')
  /\ ((2 <= NLAYERS)%Z -> p <> p' ->
      model_rnn_fn RNN_CELLSIZE NLAYERS features Hin labels p
      <> model_rnn_fn RNN_CELLSIZE NLAYERS features Hin labels p').
Proof.
  split.
  - intros Hn. destruct (Z.le_gt_cases NLAYERS 0) as [H0|H0].
    + now rewrite !model_rnn_fn_no_layer by lia.
    + assert (NLAYERS = 1%Z) by lia. subst NLAYERS. reflexivity.
  - intros Hn Hp Heq.
    rewrite !model_rnn_fn_unfold in Heq by lia. cbv zeta in Heq.
    assert (Hstack := f_equal (fun r => match r with
                                        | Ok g => stacked_cells g
                                        | Raise _ => []
                                        end) Heq).
    cbn beta iota delta [stacked_cells] in Hstack.
    apply app_inj_tail in Hstack as [Hfront _].
    assert (Hlen : length (Py.range (NLAYERS - 1)) <> O)
      by (rewrite range_length; lia).
    destruct (Py.range (NLAYERS - 1)) as [|i idx]; [now apply Hlen|].
    simpl in Hfront. inversion Hfront. contradiction.
Qed.

Lemma model_rnn_fn_dropout_needs_two_layers_witness :
  model_rnn_fn 64 1 samples (Hin 64 1) labels dropout_pkeep
  = model_rnn_fn 64 1 samples (Hin 64 1) labels (Const 1)
  /\ model_rnn_fn 64 2 samples (Hin 64 2) labels dropout_pkeep
     <> model_rnn_fn 64 2 samples (Hin 64 2) labels (Const 1).
Proof.
  split.
  - apply (proj1 (model_rnn_fn_dropout_needs_two_layers
                    64 1 samples (Hin 64 1) labels dropout_pkeep (Const 1))).
    lia.
  - apply (proj2 (model_rnn_fn_dropout_needs_two_layers
                    64 2 samples (Hin 64 2) labels dropout_pkeep (Const 1)));
      [lia | discriminate].
Defined.

(** ** More on the training loop *)

Lemma last_cons_default {A} (a d : A) (l : list A) : last (a :: l) d = last l a.
Proof.
  revert a d. induction l as [|b l IH]; intros a d; [reflexivity|].
  change (last (a :: b :: l) d) with (last (b :: l) d).
  now rewrite !IH.
Qed.

Lemma Forall2_nth_right {A B} (Q : A -> B -> Prop) (l : list A) (l' : list B) :
  Forall2 Q l l' ->
  forall k b, nth_error l' k = Some b ->
    exists a, nth_error l k = Some a /\ Q a b.
Proof.
  induction 1 as [|a0 b0 l l' Hab _ IH]; intros k b Hk.
  - destruct k; discriminate.
  - destruct k as [|k]; simpl in Hk.
    + inversion Hk; subst. exists a0. split; [reflexivity | exact Hab].
    + exact (IH k b Hk).
Qed.

(** The steps whose number is a multiple of ten, among the first [n]. *)
Lemma every_tenth (n : nat) :
  filter (fun j => (j mod 10 =? 0)%Z) (map (fun k => (0 + Z.of_nat k)%Z) (seq 0 n))
  = map (fun k => (10 * k)%Z) (Py.range ((Z.of_nat n + 9) / 10)).
Proof.
  induction n as [|n IH]; [reflexivity|].
  rewrite seq_S, map_app, filter_app, IH.
  cbn [map filter Nat.add].
  replace (0 + Z.of_nat n)%Z with (Z.of_nat n) by lia.
  destruct (Z.eqb_spec (Z.of_nat n mod 10) 0) as [Hm|Hm].
  - replace ((Z.of_nat (S n) + 9) / 10)%Z with ((Z.of_nat n + 9) / 10 + 1)%Z
      by (Z.div_mod_to_equations; lia).
    rewrite range_snoc by (Z.div_mod_to_equations; lia).
    rewrite map_app. cbn [map]. do 2 f_equal.
    Z.div_mod_to_equations. lia.
  - replace ((Z.of_nat (S n) + 9) / 10)%Z with ((Z.of_nat n + 9) / 10)%Z
      by (Z.div_mod_to_equations; lia).
    now rewrite app_nil_r.
Qed.

Section TrainingMore.

Variable DROPOUT_PKEEP : R.
Variables Yout H loss : node.
Variable train_op : op.
Variable session : Type.
Variable sess_run : session -> list fetch -> feed -> fetched * session.

(** What the loop body does to its variables, from any starting point. *)
Lemma training_steps_full :
  forall batches i H0 L I (w : world session),
  exists calls Hf L' I' s',
    training_steps DROPOUT_PKEEP Yout H loss train_op sess_run batches i H0 L I w
    = (Ok (Hf, L ++ L', I ++ I'), mk_world s' (trace w ++ calls))
    /\ length calls = length batches
    /\ (forall c, nth_error calls 0 = Some c -> feed_Hin (call_feed c) = H0)
    /\ (forall k c c',
          nth_error calls k = Some c -> nth_error calls (S k) = Some c' ->
          feed_Hin (call_feed c') = v_H (call_out c))
    /\ Hf = last (map (fun c => v_H (call_out c)) calls) H0
    /\ I' = filter (fun j => (j mod 10 =? 0)%Z)
                   (map (fun k => (i + Z.of_nat k)%Z) (seq 0 (length batches)))
    /\ Forall2 (fun l j => (i <= j)%Z
                           /\ exists c, nth_error calls (Z.to_nat (j - i)) = Some c
                                        /\ l = v_loss (call_out c)) L' I'.
Proof.
  induction batches as [|[[x y] e] batches IH]; intros i H0 L I w.
  - exists [], H0, [], [], (sess w). simpl. unfold ret.
    rewrite !app_nil_r. destruct w.
    split; [reflexivity|]. split; [reflexivity|].
    split; [intros c Hc; discriminate|].
    split; [intros k c c' Hc; destruct k; discriminate|].
    split; [reflexivity|]. split; [reflexivity | constructor].
  - simpl training_steps. unfold bind at 1. rewrite run_eq.
    set (fd := mk_feed H0 _ _ _).
    set (fs := [FetchNode Yout; FetchNode H; FetchNode loss; FetchOp train_op]).
    set (v := fst (sess_run (sess w) fs fd)).
    set (w1 := mk_world _ _).
    assert (Hshift : map (fun k => (i + Z.of_nat k)%Z) (seq 1 (length batches))
                     = map (fun k => (i + 1 + Z.of_nat k)%Z) (seq 0 (length batches))).
    { rewrite <- seq_shift, map_map. apply map_ext. intros k. lia. }
    assert (Hlift : forall calls L'' I'',
               Forall2 (fun l j => (i + 1 <= j)%Z
                          /\ exists c, nth_error calls (Z.to_nat (j - (i + 1))) = Some c
                                       /\ l = v_loss (call_out c)) L'' I'' ->
               Forall2 (fun l j => (i <= j)%Z
                          /\ exists c, nth_error (mk_call fs fd v :: calls)
                                                 (Z.to_nat (j - i)) = Some c
                                       /\ l = v_loss (call_out c)) L'' I'').
    { intros calls L'' I''. apply Forall2_impl.
      intros l j [Hj [c [Hc Hl]]]. split; [lia|]. exists c. split; [|exact Hl].
      replace (Z.to_nat (j - i)) with (S (Z.to_nat (j - (i + 1)))) by lia.
      exact Hc. }
    simpl seq. simpl map. replace (i + 0)%Z with i by lia. rewrite Hshift.
    simpl filter.
    destruct (i mod 10 =? 0)%Z.
    + destruct (IH (i + 1)%Z (v_H v) (L ++ [v_loss v]) (I ++ [i]) w1)
        as [calls [Hf [L' [I' [s' [Hrun [Hlen [Hfirst [Hlinks [Hlast [HI HL]]]]]]]]]]].
      exists (mk_call fs fd v :: calls), Hf, (v_loss v :: L'), (i :: I'), s'.
      split; [|split; [|split; [|split; [|split; [|split]]]]].
      * rewrite Hrun. subst w1. simpl trace. now rewrite <- !app_assoc.
      * simpl. now rewrite Hlen.
      * intros c Hc. inversion Hc. reflexivity.
      * intros k c c' Hc Hc'. destruct k as [|k]; simpl in Hc, Hc'.
        -- inversion Hc; subst c. exact (Hfirst c' Hc').
        -- exact (Hlinks k c c' Hc Hc').
      * simpl map. rewrite last_cons_default. exact Hlast.
      * now rewrite HI.
      * constructor.
        -- split; [lia|]. exists (mk_call fs fd v).
           replace (Z.to_nat (i - i)) with O by lia. split; reflexivity.
        -- apply Hlift. exact HL.
    + destruct (IH (i + 1)%Z (v_H v) L I w1)
        as [calls [Hf [L' [I' [s' [Hrun [Hlen [Hfirst [Hlinks [Hlast [HI HL]]]]]]]]]]].
      exists (mk_call fs fd v :: calls), Hf, L', I', s'.
      split; [|split; [|split; [|split; [|split; [|split]]]]].
      * rewrite Hrun. subst w1. simpl trace. now rewrite <- !app_assoc.
      * simpl. now rewrite Hlen.
      * intros c Hc. inversion Hc. reflexivity.
      * intros k c c' Hc Hc'. destruct k as [|k]; simpl in Hc, Hc'.
        -- inversion Hc; subst c. exact (Hfirst c' Hc').
        -- exact (Hlinks k c c' Hc Hc').
      * simpl map. rewrite last_cons_default. exact Hlast.
      * exact HI.
      * apply Hlift. exact HL.
Qed.

End TrainingMore.

(** X12. The recurrent state is carried from batch to batch: when the loop
    returns, it has made one execution per batch; the first was fed the
    initial state ([Hzero] in the notebook), every later one the state [H]
    returned by the execution before it, and the state left in [H_] after the
    loop is the one returned by the last execution (the initial one when there
    was no batch). *)
Theorem training_carries_state
        (DROPOUT_PKEEP : R) (Yout H loss : node) (train_op : op)
        (session : Type) (sess_run : session -> list fetch -> feed -> fetched * session)
        batches i H0 losses0 indices0 (w : world session)
        Hf losses indices (w' : world session) :
  training_steps DROPOUT_PKEEP Yout H loss train_op sess_run
                 batches i H0 losses0 indices0 w
  = (Ok (Hf, losses, indices), w') ->
  exists calls,
    trace w' = trace w ++ calls
    /\ length calls = length batches
    /\ (forall c, nth_error calls 0 = Some c -> feed_Hin (call_feed c) = H0)
    /\ (forall k c c',
          nth_error calls k = Some c -> nth_error calls (S k) = Some c' ->
          feed_Hin (call_feed c') = v_H (call_out c))
    /\ Hf = last (map (fun c => v_H (call_out c)) calls) H0.
Proof.
  intros Hsteps.
  destruct (training_steps_full DROPOUT_PKEEP Yout H loss train_op session sess_run
              batches i H0 losses0 indices0 w)
    as [calls [Hf' [L' [I' [s' [Hrun [Hlen [Hfirst [Hlinks [Hlast _]]]]]]]]]].
  rewrite Hrun in Hsteps. inversion Hsteps; subst. clear Hsteps.
  exists calls. repeat split; assumption.
Qed.

(** Instance: two steps on two batches of one row, with the stand-in
    network. *)
Lemma training_carries_state_witness :
  let batches := [(mk_array2 (1, 2)%Z [1; 2]%R, mk_array2 (1, 2)%Z [2; 3]%R, 0%Z);
                  (mk_array2 (1, 2)%Z [3; 4]%R, mk_array2 (1, 2)%Z [4; 5]%R, 0%Z)] in
  let H0 := mk_array2 (1, 1)%Z [0%R] in
  exists Hf losses indices w',
    training_steps Hyper.DROPOUT_PKEEP Hyper.Yout Hyper.H Hyper.loss Hyper.train_op
                   Example.sess_run batches 0 H0 [] [] Example.w0
    = (Ok (Hf, losses, indices), w')
    /\ exists calls,
        trace w' = trace Example.w0 ++ calls
        /\ length calls = length batches
        /\ (forall c, nth_error calls 0 = Some c -> feed_Hin (call_feed c) = H0)
        /\ (forall k c c',
              nth_error calls k = Some c -> nth_error calls (S k) = Some c' ->
              feed_Hin (call_feed c') = v_H (call_out c))
        /\ Hf = last (map (fun c => v_H (call_out c)) calls) H0.
Proof.
  intros batches H0.
  eexists _, _, _, _. split; [cbn; reflexivity|].
  eapply (training_carries_state
            Hyper.DROPOUT_PKEEP Hyper.Yout Hyper.H Hyper.loss Hyper.train_op
            nat Example.sess_run batches 0%Z H0 [] [] Example.w0).
  cbn. reflexivity.
Defined.

(** X13. The loss is recorded at every tenth step: after the loop (started at
    step 0 with empty lists) over [n] batches, [indices] is
    [0, 10, 20, ...] below [n], that is [ceil(n/10)] entries, [losses] has
    as many entries, and the [k]-th recorded loss is the loss returned by the
    step whose number is the [k]-th index. *)
Theorem training_logs_every_tenth
        (DROPOUT_PKEEP : R) (Yout H loss : node) (train_op : op)
        (session : Type) (sess_run : session -> list fetch -> feed -> fetched * session)
        batches H0 (w : world session) :
  exists calls Hf losses indices w',
    training_steps DROPOUT_PKEEP Yout H loss train_op sess_run batches 0 H0 [] [] w
    = (Ok (Hf, losses, indices), w')
    /\ trace w' = trace w ++ calls
    /\ indices = map (fun k => (10 * k)%Z) (Py.range ((Py.len batches + 9) / 10))
    /\ length losses = length indices
    /\ (forall k j,
          nth_error indices k = Some j ->
          exists c, nth_error calls (Z.to_nat j) = Some c
                    /\ nth_error losses k = Some (v_loss (call_out c))).
Proof.
  destruct (training_steps_full DROPOUT_PKEEP Yout H loss train_op session sess_run
              batches 0%Z H0 [] [] w)
    as [calls [Hf [L' [I' [s' [Hrun [_ [_ [_ [_ [HI HL]]]]]]]]]]].
  simpl app in Hrun. rewrite every_tenth in HI.
  exists calls, Hf, L', I', (mk_world s' (trace w ++ calls)).
  split; [exact Hrun|]. split; [reflexivity|]. split; [exact HI|].
  split; [exact (Forall2_length HL)|].
  intros k j Hk.
  destruct (Forall2_nth_right _ _ _ HL k j Hk) as [l [Hl [_ [c [Hc ->]]]]].
  exists c. rewrite Z.sub_0_r in Hc. split; assumption.
Qed.

(** ** More on the error metric *)

Lemma sum_map (f : R -> R) (n : nat) :
  forall a : list R,
    length a = S n ->
    Np.sum (map f a) = sum_f_R0 (fun i => f (nth i a 0%R)) n.
Proof.
  induction n as [|n IH]; intros [|x a] Ha; try discriminate.
  - destruct a; [|discriminate]. simpl. lra.
  - rewrite decomp_sum by lia. cbn [Nat.pred nth].
    rewrite <- (IH a) by (simpl in Ha; lia).
    reflexivity.
Qed.

Lemma broadcast_incompatible (f : R -> R -> R) (a b : list R) :
  length a <> length b -> length a <> 1%nat -> length b <> 1%nat ->
  Np.broadcast f a b = Raise ValueError.
Proof.
  intros Hab Ha Hb. unfold Np.broadcast.
  destruct (Nat.eqb_spec (length a) (length b)); [contradiction|].
  destruct a as [|x [|x' a]]; destruct b as [|y [|y' b]]; simpl in *;
    try reflexivity; congruence.
Qed.

Section RmseMore.

Variables PRIMELEN OFFSET RMSELEN : Z.

(** X16. Too few predictions make the comparison fail: if fewer than
    [RMSELEN] values were predicted (and not exactly one, nor [RMSELEN = 1]),
    the subtraction cannot broadcast and [rmse] raises [ValueError]. *)
Theorem rmse_too_few_predictions (data results : ndarray1) :
  (0 <= OFFSET + PRIMELEN)%Z -> (1 < RMSELEN)%Z ->
  (OFFSET + PRIMELEN + RMSELEN <= Py.len (elems data))%Z ->
  (Py.len (elems results) < RMSELEN)%Z -> Py.len (elems results) <> 1%Z ->
  rmse PRIMELEN OFFSET RMSELEN data results = Raise ValueError.
Proof.
  intros HOP HR Hdata Hres Hone.
  destruct (truth_window PRIMELEN OFFSET RMSELEN data HOP ltac:(lia) Hdata) as [_ Hlt].
  cbv zeta in Hlt.
  assert (Hp : Py.slice (elems results) None (Some RMSELEN) = elems results).
  { unfold Py.slice, Py.clamp. destruct (Z.ltb_spec RMSELEN 0); [lia|].
    rewrite Z.min_r, Z.max_r by (unfold Py.len in *; lia).
    rewrite Z.sub_0_r. unfold Py.len. rewrite Nat2Z.id. simpl skipn.
    apply firstn_all. }
  unfold rmse. cbn [elems Np.getslice]. rewrite Hp.
  unfold Np.sub. rewrite broadcast_incompatible; [reflexivity | | |];
    unfold Py.len in *; lia.
Qed.

(** X17. A single prediction is not rejected but stretched: when [results]
    holds exactly one value [p], every ground-truth value of the window is
    compared with [p], and the metric is the square root of the sum of the
    [(truth[i] - p)**2], [i = 0 .. RMSELEN-1], divided by [RMSELEN]. *)
Theorem rmse_single_prediction (data results : ndarray1) (p : R) :
  (0 <= OFFSET + PRIMELEN)%Z -> (1 < RMSELEN)%Z ->
  (OFFSET + PRIMELEN + RMSELEN <= Py.len (elems data))%Z ->
  elems results = [p] ->
  let truth := firstn (Z.to_nat RMSELEN)
                      (skipn (Z.to_nat (OFFSET + PRIMELEN)) (elems data)) in
  rmse PRIMELEN OFFSET RMSELEN data results
  = Ok (Num (sqrt (sum_f_R0 (fun i => ((nth i truth 0 - p) ^ 2)%R)
                            (Z.to_nat RMSELEN - 1)
                   / IZR RMSELEN))).
Proof.
  intros HOP HR Hdata Hres truth0.
  destruct (truth_window PRIMELEN OFFSET RMSELEN data HOP ltac:(lia) Hdata) as [Ht Hlt].
  cbv zeta in Ht, Hlt. fold truth0 in Ht.
  assert (Hp : Py.slice (elems results) None (Some RMSELEN) = [p]).
  { rewrite Hres. unfold Py.slice, Py.clamp, Py.len. simpl length.
    destruct (Z.ltb_spec RMSELEN 0); [lia|].
    rewrite Z.min_r, Z.max_r by lia. reflexivity. }
  unfold rmse. cbn [elems Np.getslice]. rewrite Hp.
  set (truth := Py.slice (elems data) _ _) in *.
  assert (Hb : Np.sub truth [p] = Ok (map (fun x => (x - p)%R) truth)).
  { unfold Np.sub, Np.broadcast.
    destruct (Nat.eqb_spec (length truth) (length [p])) as [He|_];
      [simpl in He; lia|].
    destruct truth as [|x [|x' truth]]; simpl in Hlt; try lia. reflexivity. }
  rewrite Hb, mean_square_value.
  - unfold Np.square. rewrite !length_map, map_map, Hlt.
    rewrite INR_IZR_INZ, Z2Nat.id by lia.
    rewrite (sum_map _ (Z.to_nat RMSELEN - 1)) by lia.
    rewrite Ht. reflexivity.
  - intros Hnil. apply (f_equal (@length R)) in Hnil.
    rewrite length_map, Hlt in Hnil. simpl in Hnil. lia.
Qed.

End RmseMore.

Lemma rmse_too_few_predictions_witness :
  rmse 1 0 2 (mk_ndarray1 float32 [0; 1; 2]%R) (mk_ndarray1 float64 [])
  = Raise ValueError.
Proof.
  apply (rmse_too_few_predictions 1 0 2 (mk_ndarray1 float32 [0; 1; 2]%R)
           (mk_ndarray1 float64 []));
    unfold Py.len; simpl; lia.
Defined.

Lemma rmse_single_prediction_witness :
  let truth := firstn (Z.to_nat 2) (skipn (Z.to_nat (0 + 1)) [0; 1; 2]%R) in
  rmse 1 0 2 (mk_ndarray1 float32 [0; 1; 2]%R) (mk_ndarray1 float32 [5]%R)
  = Ok (Num (sqrt (sum_f_R0 (fun i => ((nth i truth 0 - 5) ^ 2)%R) (Z.to_nat 2 - 1)
                   / IZR 2))).
Proof.
  apply (rmse_single_prediction 1 0 2 (mk_ndarray1 float32 [0; 1; 2]%R)
           (mk_ndarray1 float32 [5]%R) 5%R).
  - lia.
  - lia.
  - unfold Py.len. simpl. lia.
  - reflexivity.
Defined.

(** ** The arrays of the forecast plots *)

Lemma eq_zero_length (a : ndarray1) : length (Ma.eq_zero a) = length (elems a).
Proof. apply length_map. Qed.

Lemma eq_zero_zeros (n : nat) :
  map (fun x => if Req_dec_T x 0 then true else false) (repeat 0%R n) = repeat true n.
Proof.
  induction n as [|n IH]; [reflexivity|]. simpl. rewrite IH.
  destruct (Req_dec_T 0 0) as [_|Hne]; [reflexivity | contradiction].
Qed.

Section DisplayFacts.

Variables PRIMELEN RUNLEN OFFSET : Z.

(** The arrays built when both paddings have a valid length. *)
Lemma display_arrays_unfold (data prime_data results : ndarray1) :
  (0 <= PRIMELEN)%Z -> (0 <= RUNLEN)%Z ->
  let padded_results :=
    Ma.concatenate (mk_ndarray1 float64 (repeat 0%R (Z.to_nat PRIMELEN))) results in
  let padded_data :=
    Ma.concatenate prime_data (mk_ndarray1 float64 (repeat 0%R (Z.to_nat RUNLEN))) in
  display_arrays PRIMELEN RUNLEN OFFSET data prime_data results
  = Ok (Np.getslice data (Some OFFSET) (Some (OFFSET + PRIMELEN + RUNLEN)%Z),
        mk_masked padded_results (Ma.eq_zero padded_results),
        mk_masked padded_data (Ma.eq_zero padded_data)).
Proof.
  intros HP HR padded_results padded_data.
  unfold display_arrays, Ma.zeros1.
  destruct (Z.ltb_spec PRIMELEN 0); [lia|].
  destruct (Z.ltb_spec RUNLEN 0); [lia|].
  fold padded_results padded_data.
  unfold Ma.masked_where. now rewrite !eq_zero_length, !Nat.eqb_refl.
Qed.

(** X18. The three plotted arrays line up: with a series long enough and
    [RUNLEN] predictions, [disp_data], [displayresults] and [displaydata] all
    have [PRIMELEN + RUNLEN] entries, and prediction [k] sits at position
    [PRIMELEN + k], the position at which [disp_data] holds the ground truth
    [data[OFFSET + PRIMELEN + k]]. *)
Theorem display_arrays_aligned (data results : ndarray1) :
  (0 <= OFFSET)%Z -> (0 <= PRIMELEN)%Z -> (0 <= RUNLEN)%Z ->
  (OFFSET + PRIMELEN + RUNLEN <= Py.len (elems data))%Z ->
  Py.len (elems results) = RUNLEN ->
  let prime_data := Np.getslice data (Some OFFSET) (Some (OFFSET + PRIMELEN)%Z) in
  exists disp_data displayresults displaydata,
    display_arrays PRIMELEN RUNLEN OFFSET data prime_data results
    = Ok (disp_data, displayresults, displaydata)
    /\ Py.len (elems disp_data) = (PRIMELEN + RUNLEN)%Z
    /\ Py.len (elems (ma_data displayresults)) = (PRIMELEN + RUNLEN)%Z
    /\ Py.len (elems (ma_data displaydata)) = (PRIMELEN + RUNLEN)%Z
    /\ Py.len (ma_mask displayresults) = (PRIMELEN + RUNLEN)%Z
    /\ Py.len (ma_mask displaydata) = (PRIMELEN + RUNLEN)%Z
    /\ forall k, (0 <= k < RUNLEN)%Z ->
         nth_error (elems (ma_data displayresults)) (Z.to_nat (PRIMELEN + k))
         = nth_error (elems results) (Z.to_nat k)
         /\ nth_error (elems disp_data) (Z.to_nat (PRIMELEN + k))
            = nth_error (elems data) (Z.to_nat (OFFSET + PRIMELEN + k)).
Proof.
  intros HO HP HR Hdata Hres prime_data.
  pose proof (display_arrays_unfold data prime_data results HP HR) as Hrun.
  cbv zeta in Hrun.
  assert (Hprime : length (elems prime_data) = Z.to_nat PRIMELEN).
  { unfold prime_data, Np.getslice. cbn [elems].
    rewrite slice_in_range by lia.
    replace (Z.to_nat (OFFSET + PRIMELEN - OFFSET)) with (Z.to_nat PRIMELEN) by lia.
    apply window_length. unfold Py.len in Hdata. lia. }
  assert (Hdisp : Py.slice (elems data) (Some OFFSET) (Some (OFFSET + PRIMELEN + RUNLEN)%Z)
                  = firstn (Z.to_nat (PRIMELEN + RUNLEN))
                           (skipn (Z.to_nat OFFSET) (elems data))).
  { rewrite slice_in_range by lia. f_equal. lia. }
  eexists _, _, _. split; [exact Hrun|].
  cbn [ma_data ma_mask elems Ma.concatenate Np.getslice].
  unfold Py.len in *.
  rewrite !eq_zero_length. cbn [elems Ma.concatenate].
  rewrite !length_app, !repeat_length, Hprime, Hdisp.
  rewrite window_length by lia.
  repeat (split; [lia|]).
  intros k Hk. split.
  - rewrite nth_error_app2 by (rewrite repeat_length; lia).
    rewrite repeat_length. f_equal. lia.
  - rewrite nth_error_firstn, nth_error_skipn.
    destruct (Nat.ltb_spec (Z.to_nat (PRIMELEN + k)) (Z.to_nat (PRIMELEN + RUNLEN)));
      [|lia].
    f_equal. lia.
Qed.

(** X19. What the plots hide: in [displayresults] the [PRIMELEN] padding
    entries are masked and a prediction is masked exactly when it equals 0; in
    [displaydata] a priming sample is masked exactly when it equals 0 and the
    [RUNLEN] padding entries are masked. *)
Theorem display_arrays_masks (data prime_data results : ndarray1) :
  (0 <= PRIMELEN)%Z -> (0 <= RUNLEN)%Z ->
  exists disp_data displayresults displaydata,
    display_arrays PRIMELEN RUNLEN OFFSET data prime_data results
    = Ok (disp_data, displayresults, displaydata)
    /\ ma_mask displayresults
       = repeat true (Z.to_nat PRIMELEN) ++ Ma.eq_zero results
    /\ ma_mask displaydata
       = Ma.eq_zero prime_data ++ repeat true (Z.to_nat RUNLEN)
    /\ (forall k x, nth_error (elems results) k = Some x ->
          (nth_error (ma_mask displayresults) (Z.to_nat PRIMELEN + k) = Some true
           <-> x = 0%R))
    /\ (forall k x, nth_error (elems prime_data) k = Some x ->
          (nth_error (ma_mask displaydata) k = Some true <-> x = 0%R)).
Proof.
  intros HP HR.
  pose proof (display_arrays_unfold data prime_data results HP HR) as Hrun.
  cbv zeta in Hrun.
  eexists _, _, _. split; [exact Hrun|].
  cbn [ma_mask]. unfold Ma.eq_zero, Ma.concatenate. cbn [elems].
  rewrite !map_app, !eq_zero_zeros.
  split; [reflexivity|]. split; [reflexivity|]. split.
  - intros k x Hx.
    rewrite nth_error_app2 by (rewrite repeat_length; lia).
    rewrite repeat_length.
    replace (Z.to_nat PRIMELEN + k - Z.to_nat PRIMELEN)%nat with k by lia.
    rewrite nth_error_map, Hx. simpl.
    destruct (Req_dec_T x 0); split; intros Hm; congruence.
  - intros k x Hx.
    rewrite nth_error_app1
      by (rewrite length_map; apply nth_error_Some; congruence).
    rewrite nth_error_map, Hx. simpl.
    destruct (Req_dec_T x 0); split; intros Hm; congruence.
Qed.

(** X20. The plot arrays can be built exactly when neither padding length is
    negative; otherwise [np.zeros] raises [ValueError]. *)
Theorem display_arrays_raises_iff (data prime_data results : ndarray1) :
  (display_arrays PRIMELEN RUNLEN OFFSET data prime_data results = Raise ValueError
   <-> (PRIMELEN < 0 \/ RUNLEN < 0)%Z)
  /\ (forall e,
        display_arrays PRIMELEN RUNLEN OFFSET data prime_data results = Raise e ->
        e = ValueError).
Proof.
  destruct (Z.lt_ge_cases PRIMELEN 0) as [HP|HP].
  - assert (Hr : display_arrays PRIMELEN RUNLEN OFFSET data prime_data results
                 = Raise ValueError).
    { unfold display_arrays, Ma.zeros1. destruct (Z.ltb_spec PRIMELEN 0); [reflexivity|lia]. }
    split; [split; [lia | intros _; exact Hr]|].
    intros e He. rewrite Hr in He. now inversion He.
  - destruct (Z.lt_ge_cases RUNLEN 0) as [HR|HR].
    + assert (Hr : display_arrays PRIMELEN RUNLEN OFFSET data prime_data results
                   = Raise ValueError).
      { unfold display_arrays, Ma.zeros1.
        destruct (Z.ltb_spec PRIMELEN 0); [lia|].
        unfold Ma.masked_where. rewrite eq_zero_length, Nat.eqb_refl.
        destruct (Z.ltb_spec RUNLEN 0); [reflexivity|lia]. }
      split; [split; [lia | intros _; exact Hr]|].
      intros e He. rewrite Hr in He. now inversion He.
    + pose proof (display_arrays_unfold data prime_data results HP HR) as Hrun.
      cbv zeta in Hrun. split; [split|].
      * intros Hr. rewrite Hrun in Hr. discriminate.
      * lia.
      * intros e He. rewrite Hrun in He. discriminate.
Qed.

End DisplayFacts.

Lemma display_arrays_aligned_witness :
  let data := mk_ndarray1 float32 [0; 1; 2]%R in
  let results := mk_ndarray1 float32 [5; 6]%R in
  let prime_data := Np.getslice data (Some 0%Z) (Some (0 + 1)%Z) in
  exists disp_data displayresults displaydata,
    display_arrays 1 2 0 data prime_data results
    = Ok (disp_data, displayresults, displaydata)
    /\ Py.len (elems disp_data) = (1 + 2)%Z
    /\ Py.len (elems (ma_data displayresults)) = (1 + 2)%Z
    /\ Py.len (elems (ma_data displaydata)) = (1 + 2)%Z
    /\ Py.len (ma_mask displayresults) = (1 + 2)%Z
    /\ Py.len (ma_mask displaydata) = (1 + 2)%Z
    /\ forall k, (0 <= k < 2)%Z ->
         nth_error (elems (ma_data displayresults)) (Z.to_nat (1 + k))
         = nth_error (elems results) (Z.to_nat k)
         /\ nth_error (elems disp_data) (Z.to_nat (1 + k))
            = nth_error (elems data) (Z.to_nat (0 + 1 + k)).
Proof.
  apply (display_arrays_aligned 1 2 0 (mk_ndarray1 float32 [0; 1; 2]%R)
           (mk_ndarray1 float32 [5; 6]%R));
    try lia; unfold Py.len; simpl; lia.
Defined.

Lemma display_arrays_masks_witness :
  exists disp_data displayresults displaydata,
    display_arrays 1 2 0 (mk_ndarray1 float32 [0; 1; 2]%R)
                   (mk_ndarray1 float32 [0]%R) (mk_ndarray1 float32 [5; 0]%R)
    = Ok (disp_data, displayresults, displaydata)
    /\ ma_mask displayresults
       = repeat true (Z.to_nat 1) ++ Ma.eq_zero (mk_ndarray1 float32 [5; 0]%R)
    /\ ma_mask displaydata
       = Ma.eq_zero (mk_ndarray1 float32 [0]%R) ++ repeat true (Z.to_nat 2)
    /\ (forall k x, nth_error (elems (mk_ndarray1 float32 [5; 0]%R)) k = Some x ->
          (nth_error (ma_mask displayresults) (Z.to_nat 1 + k) = Some true
           <-> x = 0%R))
    /\ (forall k x, nth_error (elems (mk_ndarray1 float32 [0]%R)) k = Some x ->
          (nth_error (ma_mask displaydata) k = Some true <-> x = 0%R)).
Proof.
  apply (display_arrays_masks 1 2 0 (mk_ndarray1 float32 [0; 1; 2]%R)
           (mk_ndarray1 float32 [0]%R) (mk_ndarray1 float32 [5; 0]%R)); lia.
Defined.

Lemma display_arrays_raises_iff_witness :
  display_arrays (-1) 2 0 (mk_ndarray1 float32 [0; 1; 2]%R)
                 (mk_ndarray1 float32 [0]%R) (mk_ndarray1 float32 [5; 0]%R)
  = Raise ValueError.
Proof.
  apply (proj2 (proj1 (display_arrays_raises_iff (-1) 2 0
                         (mk_ndarray1 float32 [0; 1; 2]%R)
                         (mk_ndarray1 float32 [0]%R)
                         (mk_ndarray1 float32 [5; 0]%R)))).
  lia.
Defined.

(** ** The forecast cell as a whole *)

Section ForecastMore.

Variables RNN_CELLSIZE NLAYERS : Z.
Variables Yout H : node.
Variable session : Type.
Variable sess_run : session -> list fetch -> feed -> fetched * session.
Variables PRIMELEN RUNLEN OFFSET RMSELEN : Z.

(** X21. The forecast cell is [prediction_run] on the priming window followed
    by the preparation of the plotted arrays and by [rmse], both on its
    result: with a series long enough (and a state size that [np.zeros]
    accepts) it makes one priming execution on a sequence of [PRIMELEN]
    samples and [RUNLEN] feedback executions, returns [RUNLEN] predictions,
    and the plotted arrays and the metric are computed from these without
    another execution. *)
Theorem forecast_cell_composes (data : ndarray1) (w : world session) :
  well_shaped sess_run -> (0 <= RNN_CELLSIZE * NLAYERS)%Z ->
  (0 <= OFFSET)%Z -> (0 < PRIMELEN)%Z -> (0 < RMSELEN <= RUNLEN)%Z ->
  (OFFSET + PRIMELEN + RMSELEN <= Py.len (elems data))%Z ->
  let prime_data := Np.getslice data (Some OFFSET) (Some (OFFSET + PRIMELEN)%Z) in
  exists results plots e w' c0 calls,
    forecast_cell RNN_CELLSIZE NLAYERS Yout H sess_run PRIMELEN RUNLEN OFFSET RMSELEN
                  data w
    = (Ok (results, plots, e), w')
    /\ prediction_run RNN_CELLSIZE NLAYERS Yout H sess_run prime_data RUNLEN w
       = (Ok results, w')
    /\ display_arrays PRIMELEN RUNLEN OFFSET data prime_data results = Ok plots
    /\ rmse PRIMELEN OFFSET RMSELEN data results = Ok e
    /\ Py.len (elems results) = RUNLEN
    /\ trace w' = trace w ++ c0 :: calls
    /\ a3_shape (feed_samples (call_feed c0)) = (1, PRIMELEN, 1)%Z
    /\ Py.len calls = RUNLEN.
Proof.
  intros Hshape Hdim HO HP HR Hdata prime_data.
  assert (Hprime : Py.len (elems prime_data) = PRIMELEN).
  { unfold prime_data, Np.getslice, Py.len. cbn [elems].
    rewrite slice_in_range by lia.
    rewrite window_length; unfold Py.len in Hdata; lia. }
  destruct (prediction_run_spec RNN_CELLSIZE NLAYERS Yout H session sess_run Hshape
              prime_data RUNLEN w Hdim)
    as [priming [calls [ys [Y0 [H0 [s0 [s' [Hrun [_ [Hc [Hy Hp]]]]]]]]]]].
  destruct Hp as [[Hnil _]|[_ [Hp _]]].
  { rewrite Hnil in Hprime. unfold Py.len in Hprime. simpl in Hprime. lia. }
  subst priming.
  assert (Hrmse := rmse_unfold PRIMELEN OFFSET RMSELEN data (np_array ys)
                     ltac:(lia) ltac:(lia) Hdata
                     ltac:(unfold np_array, Py.len; cbn [elems]; lia)).
  pose proof (display_arrays_unfold PRIMELEN RUNLEN OFFSET data prime_data
                (np_array ys) ltac:(lia) ltac:(lia)) as Hplots.
  cbv zeta in Hplots.
  eexists (np_array ys), _, _, _, _, calls.
  split; [|split; [exact Hrun | split; [exact Hplots | split; [exact Hrmse|]]]].
  - unfold forecast_cell. fold prime_data.
    unfold bind at 1. rewrite Hrun.
    unfold bind at 1, lift at 1. rewrite Hplots.
    unfold bind at 1, lift at 1. rewrite Hrmse. reflexivity.
  - split; [unfold np_array, Py.len; cbn [elems]; lia|].
    split; [reflexivity|].
    split; [cbn [call_feed feed_samples a3_shape]; now rewrite Hprime|].
    unfold Py.len. lia.
Qed.

End ForecastMore.

Lemma forecast_cell_composes_witness :
  let prime_data := Np.getslice Example.series (Some Hyper.OFFSET)
                                (Some (Hyper.OFFSET + Hyper.PRIMELEN)%Z) in
  exists results plots e w' c0 calls,
    forecast_cell Hyper.RNN_CELLSIZE Hyper.NLAYERS Hyper.Yout Hyper.H Example.sess_run
                  Hyper.PRIMELEN Hyper.RUNLEN Hyper.OFFSET Hyper.RMSELEN
                  Example.series Example.w0
    = (Ok (results, plots, e), w')
    /\ prediction_run Hyper.RNN_CELLSIZE Hyper.NLAYERS Hyper.Yout Hyper.H
                      Example.sess_run prime_data Hyper.RUNLEN Example.w0
       = (Ok results, w')
    /\ display_arrays Hyper.PRIMELEN Hyper.RUNLEN Hyper.OFFSET Example.series
                      prime_data results
       = Ok plots
    /\ rmse Hyper.PRIMELEN Hyper.OFFSET Hyper.RMSELEN Example.series results = Ok e
    /\ Py.len (elems results) = Hyper.RUNLEN
    /\ trace w' = trace Example.w0 ++ c0 :: calls
    /\ a3_shape (feed_samples (call_feed c0)) = (1, Hyper.PRIMELEN, 1)%Z
    /\ Py.len calls = Hyper.RUNLEN.
Proof.
  apply (forecast_cell_composes Hyper.RNN_CELLSIZE Hyper.NLAYERS Hyper.Yout Hyper.H
           nat Example.sess_run
           Hyper.PRIMELEN Hyper.RUNLEN Hyper.OFFSET Hyper.RMSELEN
           Example.series Example.w0);
    try exact example_well_shaped;
    unfold Hyper.PRIMELEN, Hyper.OFFSET, Hyper.RMSELEN, Hyper.RUNLEN, Py.len,
           Hyper.RNN_CELLSIZE, Hyper.NLAYERS, Example.series;
    cbn [elems]; rewrite ?repeat_length; lia.
Defined.
